(** * JSON-Web-Token middleware for go-json-rest: a shallow embedding of
    [auth_jwt.go] and the properties of its token life cycle.

    The handlers of the Go package mutate a response writer, the request
    environment and (in [MiddlewareFunc]) the middleware struct itself, read
    the wall clock and call back into the embedding application.  They are
    modelled here in a state monad over a [World] that holds exactly those
    objects; a Go panic and [log.Fatal] are outcomes of their own. *)

From Stdlib Require Import ZArith QArith Lia Ascii String.
From stdpp Require Import base option gmap strings list fin_maps pretty.

Local Open Scope string_scope.
Local Open Scope Z_scope.

(** ** Go scalars: int64, time.Duration, time.Time, float64 *)

Definition int64_min : Z := - 2 ^ 63.
Definition int64_max : Z := 2 ^ 63 - 1.

Definition in_int64 (z : Z) : bool := (int64_min <=? z) && (z <=? int64_max).

(** Two's-complement wrap-around of a mathematical integer into int64. *)
Definition wrap64 (z : Z) : Z := (z + 2 ^ 63) mod 2 ^ 64 - 2 ^ 63.

(** [time.Duration] is an int64 count of nanoseconds. *)
Abbreviation Duration := Z (only parsing).

Definition Second : Z := 1000000000.
Definition Hour : Z := 3600 * Second.

(** Unary minus on a Duration, as in [-mw.MaxRefresh]. *)
Definition neg_duration (d : Z) : Z := wrap64 (- d).

(** A [time.Time] is represented by its wall-clock instant in nanoseconds
    since the Unix epoch. *)
Abbreviation Time := Z (only parsing).

Definition Add (t : Z) (d : Z) : Z := t + d.

(** [t.Unix()]: whole seconds since the epoch, rounded down. *)
Definition Unix (t : Z) : Z := t / Second.

(** A finite [float64] is represented by the rational number it denotes.
    Claims decoded from JSON never hold NaN or an infinity. *)
Abbreviation float64 := Q (only parsing).

(** The conversion [int64(f)]: the fraction is discarded (truncation towards
    zero).  Outside the range of int64 the Go specification leaves the result
    to the implementation; amd64 yields the minimal int64. *)
Definition int64_of_float64 (f : Q) : Z :=
  let t := Z.quot (Qnum f) (Z.pos (Qden f)) in
  if in_int64 t then t else int64_min.

(** Rounding of a natural number to 53 significant bits, ties to even. *)
Definition round53 (a : Z) : Z :=
  let k := Z.log2 a + 1 - 53 in
  if k <=? 0 then a
  else
    let q := a / 2 ^ k in
    let r := a mod 2 ^ k in
    let half := 2 ^ (k - 1) in
    let q' := if r <? half then q
              else if half <? r then q + 1
              else if Z.even q then q else q + 1 in
    q' * 2 ^ k.

(** The float64 that a JSON decoder yields for the decimal rendering of an
    int64: the nearest float64. *)
Definition float64_of_int64 (n : Z) : Q :=
  inject_Z (if n <? 0 then - round53 (- n) else round53 n).

(** Integers that survive the trip through float64 unchanged. *)
Definition exact_float64 (n : Z) : Prop := float64_of_int64 n = inject_Z n.

(** ** Dynamic values and claims *)

(** The dynamic values of a [map[string]interface{}].  Handlers store Go
    int64 values; a decoded token holds float64 for every JSON number. *)
Inductive Value : Type :=
| VNil                       (* the nil interface, JSON null *)
| VBool (b : bool)
| VString (s : string)
| VInt64 (n : Z)
| VFloat64 (f : Q)
| VJson (raw : string)       (* a nested array or object, by its rendering *)
| VUnsupported.              (* a value encoding/json refuses: a func, a channel *)

(** Claims are a [map[string]interface{}], here [gmap string Value]; a nil
    map reads like the empty one, and the handlers only ever write to maps
    made by [jwt.New]. *)

(** Indexing a map: the nil interface when the key is missing. *)
Definition index (c : gmap string Value) (k : string) : Value :=
  default VNil (c !! k).

Definition supported (v : Value) : bool :=
  match v with VUnsupported => false | _ => true end.

(** What a value looks like after [json.Marshal] followed by a decode into
    [interface{}]. *)
Definition json_value (v : Value) : Value :=
  match v with
  | VInt64 n => VFloat64 (float64_of_int64 n)
  | _ => v
  end.

(** The claims as they come back from the wire, when they can be encoded. *)
Definition json_claims (c : gmap string Value) : option (gmap string Value) :=
  if bool_decide (map_Forall (fun _ v => supported v = true) c)
  then Some (json_value <$> c) else None.

(** ** The request and the response writer of go-json-rest *)

Inductive EnvValue : Type :=
| EnvNil
| EnvString (s : string)
| EnvClaims (m : option (gmap string Value))  (* [None] is a nil map *)
| EnvOther (tag : string).

Record Request : Type := {
  Header : string -> string;             (* [request.Header.Get] *)
  Body : string;
  Env : gmap string EnvValue;
}.

Definition set_Env (k : string) (v : EnvValue) (r : Request) : Request :=
  {| Header := Header r; Body := Body r; Env := <[k := v]> (Env r) |}.

Inductive JsonBody : Type :=
| ErrorBody (msg : string)               (* the object with the Error field *)
| TokenBody (tokenString : string).      (* [resultToken] *)

Record ResponseWriter : Type := {
  headers : gmap string string;
  status : option Z;
  body : list JsonBody;
}.

Definition StatusUnauthorized : Z := 401.
Definition StatusOK : Z := 200.

Definition Header_Set (k v : string) (w : ResponseWriter) : ResponseWriter :=
  {| headers := <[k := v]> (headers w); status := status w; body := body w |}.

(** Modelled from the spec: [WriteHeader] of the response writer, which is
    not part of src/.  The status line is written once. *)
Definition WriteHeader (code : Z) (w : ResponseWriter) : ResponseWriter :=
  {| headers := headers w;
     status := match status w with Some c => Some c | None => Some code end;
     body := body w |}.

(** Modelled from the spec: [WriteJson] of the response writer, which is not
    part of src/.  It sends the document, after status 200 when no status
    was written before. *)
Definition WriteJson (doc : JsonBody) (w : ResponseWriter) : ResponseWriter :=
  let w1 := WriteHeader StatusOK w in
  {| headers := headers w1; status := status w1; body := body w1 ++ [doc] |}.

(** Modelled from the spec: [rest.Error], which is not part of src/: the
    status code, then a generic body that carries only the message. *)
Definition rest_Error (msg : string) (code : Z) (w : ResponseWriter)
  : ResponseWriter :=
  WriteJson (ErrorBody msg) (WriteHeader code w).

(** ** The middleware struct *)

Record login : Type := { Username : string; Password : string }.

Record resultToken : Type := { Token_ : string }.

(** The token extractor is either supplied by the application or the closure
    that [defaultTokenExtractor] returns, which keeps the pointer to the
    middleware and reads [TokenName] through it on every call. *)
Inductive result (A : Type) : Type :=
| Ok (a : A)
| Err (msg : string).
Arguments Ok {A} a.
Arguments Err {A} msg.

Inductive Extractor : Type :=
| CustomExtractor (f : Request -> result string)
| DefaultExtractor.

Record JWTMiddleware : Type := {
  Realm : string;
  SigningAlgorithm : string;
  Key : option (list Byte.byte);           (* [None] is the nil slice *)
  Timeout : Z;
  MaxRefresh : Z;
  Authenticator : option (string -> string -> bool);
  Authorizator : option (string -> Request -> bool);
  StoreToken : bool;                       (* set or nil; calls go to the trace *)
  RemoveToken : bool;
  PayloadFunc : option (string -> gmap string Value);
  TokenExtractor : option Extractor;
  TokenName : string;
  TokenEnvName : string;
  LoginCallback :
    option (string -> Request -> ResponseWriter -> ResponseWriter);
  RefreshCallback :
    option (string -> Request -> ResponseWriter -> ResponseWriter);
}.

(** ** Effects *)

(** Calls into the embedding application, in the order they happen. *)
Inductive Event : Type :=
| EvAuthenticator (userId password : string)
| EvAuthorizator (userId : string)
| EvPayloadFunc (userId : string)
| EvStoreToken (timeout : Z) (username token : string)
| EvRemoveToken (userId token : string)
| EvLoginCallback (tokenString : string)
| EvRefreshCallback (tokenString : string)
| EvHandler.

Record World : Type := {
  mw : JWTMiddleware;          (* the struct behind the receiver pointer *)
  writer : ResponseWriter;
  request : Request;
  clock : nat -> Z;            (* what the n-th call of [time.Now] returns *)
  ticks : nat;                 (* calls of [time.Now] so far *)
  trace : list Event;
}.

Inductive Outcome (A : Type) : Type :=
| Ret (a : A)
| Panic (msg : string)
| Fatal (msg : string).
Arguments Ret {A} a.
Arguments Panic {A} msg.
Arguments Fatal {A} msg.

Definition M (A : Type) : Type := World -> Outcome A * World.

Definition ret {A} (a : A) : M A := fun w => (Ret a, w).

Definition bind {A B} (m : M A) (k : A -> M B) : M B :=
  fun w =>
    match m w with
    | (Ret a, w') => k a w'
    | (Panic msg, w') => (Panic msg, w')
    | (Fatal msg, w') => (Fatal msg, w')
    end.

Declare Scope go_scope.
Delimit Scope go_scope with go.
Notation "x <- m ;; k" := (bind m (fun x => k))
  (at level 100, m at next level, right associativity) : go_scope.
Notation "m ;;; k" := (bind m (fun _ => k))
  (at level 100, right associativity) : go_scope.
Local Open Scope go_scope.

Definition panic {A} (msg : string) : M A := fun w => (Panic msg, w).
Definition log_Fatal {A} (msg : string) : M A := fun w => (Fatal msg, w).

Definition get_mw : M JWTMiddleware := fun w => (Ret (mw w), w).
Definition get_request : M Request := fun w => (Ret (request w), w).

Definition set_mw (f : JWTMiddleware -> JWTMiddleware) : M unit :=
  fun w => (Ret tt, {| mw := f (mw w); writer := writer w; request := request w;
                        clock := clock w; ticks := ticks w; trace := trace w |}).

Definition on_writer (f : ResponseWriter -> ResponseWriter) : M unit :=
  fun w => (Ret tt, {| mw := mw w; writer := f (writer w); request := request w;
                        clock := clock w; ticks := ticks w; trace := trace w |}).

Definition on_request (f : Request -> Request) : M unit :=
  fun w => (Ret tt, {| mw := mw w; writer := writer w; request := f (request w);
                        clock := clock w; ticks := ticks w; trace := trace w |}).

Definition emit (e : Event) : M unit :=
  fun w => (Ret tt, {| mw := mw w; writer := writer w; request := request w;
                        clock := clock w; ticks := ticks w;
                        trace := trace w ++ [e] |}).

(** [time.Now()] *)
Definition time_Now : M Z :=
  fun w => (Ret (clock w (ticks w)),
            {| mw := mw w; writer := writer w; request := request w;
               clock := clock w; ticks := S (ticks w); trace := trace w |}).

(** Calling a func-typed field that is nil panics. *)
Definition call {A} (name : string) (f : option A) : M A :=
  match f with
  | Some g => ret g
  | None => panic ("nil func " ++ name)
  end.

(** Type assertions without the comma-ok form panic on any other dynamic
    type, the nil interface included. *)
Definition assert_string (v : Value) : M string :=
  match v with
  | VString s => ret s
  | _ => panic "interface conversion: interface {} is not string"
  end.

Definition assert_float64 (v : Value) : M Q :=
  match v with
  | VFloat64 f => ret f
  | _ => panic "interface conversion: interface {} is not float64"
  end.

(** [for key, value := range src { dst[key] = value }] *)
Definition copy_entries (src dst : gmap string Value) : gmap string Value :=
  map_fold (fun key value acc => <[key := value]> acc) dst src.

(** [strings.SplitN(s, " ", 2)] *)
Fixpoint SplitN2 (s : string) : list string :=
  match s with
  | EmptyString => [EmptyString]
  | String c rest =>
      if Ascii.eqb c " "%char then [EmptyString; rest]
      else match SplitN2 rest with
           | [] => []
           | p :: ps => String c p :: ps
           end
  end.

(** ** The libraries the package calls: jwt-go and go-json-rest

    Neither is part of the repository.  Their primitives are parameters of
    the development: the registry of signing methods, the compact
    serialisation of a token, the signature scheme and the JSON decoder of
    the request body. *)
Class Libraries : Type := {
  (** [jwt.GetSigningMethod(alg) != nil] *)
  registered : string -> bool;
  (** the first two segments of a token: header and claims *)
  encode_segments : string -> gmap string Value -> string;
  (** [method.Sign(signingString, key)], [None] on error *)
  Sign : string -> string -> option (list Byte.byte) -> option string;
  (** [method.Verify(signingString, signature, key) == nil] *)
  Verify : string -> string -> string -> option (list Byte.byte) -> bool;
  (** splitting and decoding a token string: algorithm, claims, signed part
      and signature; [None] when it is malformed *)
  decode_token :
    string -> option (string * gmap string Value * string * string);
  (** [request.DecodeJsonPayload(&loginVals)], [None] on error *)
  DecodeJsonPayload : string -> option login;
}.

Record Token : Type := {
  Raw : string;
  Method : string;               (* a registered method, by its name *)
  Claims : gmap string Value;
}.

Definition with_Claims (c : gmap string Value) (t : Token) : Token :=
  {| Raw := Raw t; Method := Method t; Claims := c |}.

Section Middleware.
Context {L : Libraries}.

Definition GetSigningMethod (alg : string) : option string :=
  if registered alg then Some alg else None.

(** [jwt.New(method)] asks the method for its name: a nil method is a nil
    dereference. *)
Definition jwt_New (method : option string) : M Token :=
  match method with
  | Some m => ret {| Raw := EmptyString; Method := m; Claims := ∅ |}
  | None => panic "invalid memory address or nil pointer dereference"
  end.

(** [token.SigningString()] *)
Definition SigningString (t : Token) : result string :=
  match json_claims (Claims t) with
  | Some wire => Ok (encode_segments (Method t) wire)
  | None => Err "json: unsupported type"
  end.

(** Modelled from the spec: [token.SignedString(key)] of jwt-go, which is not
    part of src/.  A token binds a claims snapshot and a signature computed
    over it with the configured key and algorithm. *)
Definition SignedString (t : Token) (key : option (list Byte.byte))
  : result string :=
  match SigningString t with
  | Err e => Err e
  | Ok signed =>
      match Sign (Method t) signed key with
      | Some sig => Ok (signed ++ "." ++ sig)
      | None => Err "key is invalid"
      end
  end.

(** [exp] is strictly in the future of the instant [now] (in seconds). *)
Definition exp_in_future (c : gmap string Value) (now : Z) : bool :=
  match c !! "exp" with
  | Some (VFloat64 e) => now <? int64_of_float64 e
  | _ => false
  end.

(** Modelled from the spec: [jwt.Parse] of jwt-go, which is not part of
    src/.  The token is decoded, the key function is asked for the key of the
    decoded token, and the token is valid iff the signature verifies under
    that key and the token's algorithm and [exp] is strictly in the future
    at verification time. *)
Definition jwt_Parse (tokenString : string)
    (keyFunc : Token -> result (option (list Byte.byte)))
  : M (result Token) :=
  match decode_token tokenString with
  | None => ret (Err "token is malformed")
  | Some (alg, claims, signed, sig) =>
      match GetSigningMethod alg with
      | None => ret (Err "signing method (alg) is unavailable")
      | Some m =>
          let token := {| Raw := tokenString; Method := m; Claims := claims |} in
          match keyFunc token with
          | Err e => ret (Err e)
          | Ok key =>
              now <- time_Now ;;
              if exp_in_future claims (Unix now) && Verify m signed sig key
              then ret (Ok token)
              else ret (Err "token is invalid")
          end
      end
  end.

(** ** The package *)

Definition defaultResponseCallback (tokenString : string)
    (request : Request) (writer : ResponseWriter) : ResponseWriter :=
  WriteJson (TokenBody tokenString) writer.

Definition defaultTokenExtractor (m : JWTMiddleware) (request : Request)
  : result string :=
  let authHeader := Header request (TokenName m) in
  if bool_decide (authHeader = EmptyString) then Err "Auth header empty"
  else
    match SplitN2 authHeader with
    | [p0; p1] =>
        if bool_decide (p0 = "Bearer") then Ok p1
        else Err "Invalid auth header"
    | _ => Err "Invalid auth header"
    end.

Definition run_extractor (e : Extractor) (m : JWTMiddleware)
    (request : Request) : result string :=
  match e with
  | CustomExtractor f => f request
  | DefaultExtractor => defaultTokenExtractor m request
  end.

Definition unauthorized : M unit :=
  m <- get_mw ;;
  on_writer (Header_Set "WWW-Authenticate" ("JWT realm=" ++ Realm m)) ;;;
  on_writer (rest_Error "Not Authorized" StatusUnauthorized).

(** The key function that [parseToken] hands to [jwt.Parse]. *)
Definition keyFunc (m : JWTMiddleware) (token : Token)
  : result (option (list Byte.byte)) :=
  if bool_decide (GetSigningMethod (SigningAlgorithm m) ≠ Some (Method token))
  then Err "Invalid signing algorithm"
  else Ok (Key m).

Definition parseToken : M (result Token) :=
  m <- get_mw ;;
  request <- get_request ;;
  extractor <- call "TokenExtractor" (TokenExtractor m) ;;
  match run_extractor extractor m request with
  | Err e => ret (Err e)
  | Ok tokenString => jwt_Parse tokenString (keyFunc m)
  end.

Definition middlewareImpl
    (handler : ResponseWriter -> Request -> ResponseWriter) : M unit :=
  r <- parseToken ;;
  match r with
  | Err _ => unauthorized
  | Ok token =>
      id <- assert_string (index (Claims token) "id") ;;
      m <- get_mw ;;
      on_request (set_Env "REMOTE_USER" (EnvString id)) ;;;
      on_request (set_Env "JWT_PAYLOAD" (EnvClaims (Some (Claims token)))) ;;;
      on_request (set_Env (TokenEnvName m) (EnvString (Raw token))) ;;;
      authorizator <- call "Authorizator" (Authorizator m) ;;
      request <- get_request ;;
      emit (EvAuthorizator id) ;;;
      if negb (authorizator id request) then unauthorized
      else
        emit EvHandler ;;;
        on_writer (fun writer => handler writer request)
  end.

(** [ExtractClaims] touches nothing but the request it is given. *)
Definition ExtractClaims (request : Request)
  : Outcome (option (gmap string Value)) :=
  match Env request !! "JWT_PAYLOAD" with
  | None | Some EnvNil => Ret (Some ∅)
  | Some (EnvClaims jwtClaims) => Ret jwtClaims
  | Some _ => Panic "interface conversion: interface {} is not map"
  end.

(** The token that [LoginHandler] builds before signing it: [jwt.New], the
    entries of [PayloadFunc], then the reserved claims. *)
Definition loginToken (m : JWTMiddleware) (loginVals : login) : M Token :=
  token <- jwt_New (GetSigningMethod (SigningAlgorithm m)) ;;
  c1 <- match PayloadFunc m with
        | Some payload =>
            emit (EvPayloadFunc (Username loginVals)) ;;;
            ret (copy_entries (payload (Username loginVals)) (Claims token))
        | None => ret (Claims token)
        end ;;
  let c2 := <["id" := VString (Username loginVals)]> c1 in
  now <- time_Now ;;
  let c3 := <["exp" := VInt64 (Unix (Add now (Timeout m)))]> c2 in
  c4 <- (if bool_decide (MaxRefresh m ≠ 0)
         then now' <- time_Now ;;
              ret (<["orig_iat" := VInt64 (Unix now')]> c3)
         else ret c3) ;;
  ret (with_Claims c4 token).

Definition LoginHandler : M unit :=
  request <- get_request ;;
  m <- get_mw ;;
  match DecodeJsonPayload (Body request) with
  | None => unauthorized
  | Some loginVals =>
      authenticator <- call "Authenticator" (Authenticator m) ;;
      emit (EvAuthenticator (Username loginVals) (Password loginVals)) ;;;
      if negb (authenticator (Username loginVals) (Password loginVals))
      then unauthorized
      else
        token <- loginToken m loginVals ;;
        match SignedString token (Key m) with
        | Err _ => unauthorized
        | Ok tokenString =>
            (if StoreToken m
             then emit (EvStoreToken (Timeout m) (Username loginVals)
                                     tokenString)
             else ret tt) ;;;
            callback <- call "LoginCallback" (LoginCallback m) ;;
            emit (EvLoginCallback tokenString) ;;;
            on_writer (callback tokenString request)
        end
  end.

(** The token that [RefreshHandler] builds before signing it: [jwt.New], a
    copy of every entry of the presented token, then the reserved claims. *)
Definition refreshToken (m : JWTMiddleware) (token : Token) (origIat : Z)
  : M Token :=
  newToken <- jwt_New (GetSigningMethod (SigningAlgorithm m)) ;;
  let c1 := copy_entries (Claims token) (Claims newToken) in
  let c2 := <["id" := index (Claims token) "id"]> c1 in
  now <- time_Now ;;
  let c3 := <["exp" := VInt64 (Unix (Add now (Timeout m)))]> c2 in
  let c4 := <["orig_iat" := VInt64 origIat]> c3 in
  ret (with_Claims c4 newToken).

Definition RefreshHandler : M unit :=
  r <- parseToken ;;
  match r with
  | Err _ => unauthorized
  | Ok token =>
      f <- assert_float64 (index (Claims token) "orig_iat") ;;
      let origIat := int64_of_float64 f in
      m <- get_mw ;;
      now <- time_Now ;;
      if origIat <? Unix (Add now (neg_duration (MaxRefresh m)))
      then unauthorized
      else
        newToken <- refreshToken m token origIat ;;
        match SignedString newToken (Key m) with
        | Err _ => unauthorized
        | Ok tokenString =>
            userId <- assert_string (index (Claims newToken) "id") ;;
            (if StoreToken m
             then emit (EvStoreToken (Timeout m) userId tokenString)
             else ret tt) ;;;
            (if RemoveToken m
             then emit (EvRemoveToken userId (Raw token))
             else ret tt) ;;;
            callback <- call "RefreshCallback" (RefreshCallback m) ;;
            request <- get_request ;;
            emit (EvRefreshCallback tokenString) ;;;
            on_writer (callback tokenString request)
        end
  end.

(** Field updates of the struct, one per assignment in [MiddlewareFunc]. *)
Definition set_TokenName (v : string) (m : JWTMiddleware) : JWTMiddleware :=
  {| Realm := Realm m; SigningAlgorithm := SigningAlgorithm m; Key := Key m;
     Timeout := Timeout m; MaxRefresh := MaxRefresh m;
     Authenticator := Authenticator m; Authorizator := Authorizator m;
     StoreToken := StoreToken m; RemoveToken := RemoveToken m;
     PayloadFunc := PayloadFunc m; TokenExtractor := TokenExtractor m;
     TokenName := v; TokenEnvName := TokenEnvName m;
     LoginCallback := LoginCallback m; RefreshCallback := RefreshCallback m |}.

Definition set_TokenEnvName (v : string) (m : JWTMiddleware) : JWTMiddleware :=
  {| Realm := Realm m; SigningAlgorithm := SigningAlgorithm m; Key := Key m;
     Timeout := Timeout m; MaxRefresh := MaxRefresh m;
     Authenticator := Authenticator m; Authorizator := Authorizator m;
     StoreToken := StoreToken m; RemoveToken := RemoveToken m;
     PayloadFunc := PayloadFunc m; TokenExtractor := TokenExtractor m;
     TokenName := TokenName m; TokenEnvName := v;
     LoginCallback := LoginCallback m; RefreshCallback := RefreshCallback m |}.

Definition set_SigningAlgorithm (v : string) (m : JWTMiddleware)
  : JWTMiddleware :=
  {| Realm := Realm m; SigningAlgorithm := v; Key := Key m;
     Timeout := Timeout m; MaxRefresh := MaxRefresh m;
     Authenticator := Authenticator m; Authorizator := Authorizator m;
     StoreToken := StoreToken m; RemoveToken := RemoveToken m;
     PayloadFunc := PayloadFunc m; TokenExtractor := TokenExtractor m;
     TokenName := TokenName m; TokenEnvName := TokenEnvName m;
     LoginCallback := LoginCallback m; RefreshCallback := RefreshCallback m |}.

Definition set_Timeout (v : Z) (m : JWTMiddleware) : JWTMiddleware :=
  {| Realm := Realm m; SigningAlgorithm := SigningAlgorithm m; Key := Key m;
     Timeout := v; MaxRefresh := MaxRefresh m;
     Authenticator := Authenticator m; Authorizator := Authorizator m;
     StoreToken := StoreToken m; RemoveToken := RemoveToken m;
     PayloadFunc := PayloadFunc m; TokenExtractor := TokenExtractor m;
     TokenName := TokenName m; TokenEnvName := TokenEnvName m;
     LoginCallback := LoginCallback m; RefreshCallback := RefreshCallback m |}.

Definition set_TokenExtractor (v : option Extractor) (m : JWTMiddleware)
  : JWTMiddleware :=
  {| Realm := Realm m; SigningAlgorithm := SigningAlgorithm m; Key := Key m;
     Timeout := Timeout m; MaxRefresh := MaxRefresh m;
     Authenticator := Authenticator m; Authorizator := Authorizator m;
     StoreToken := StoreToken m; RemoveToken := RemoveToken m;
     PayloadFunc := PayloadFunc m; TokenExtractor := v;
     TokenName := TokenName m; TokenEnvName := TokenEnvName m;
     LoginCallback := LoginCallback m; RefreshCallback := RefreshCallback m |}.

Definition set_Authorizator (v : option (string -> Request -> bool))
    (m : JWTMiddleware) : JWTMiddleware :=
  {| Realm := Realm m; SigningAlgorithm := SigningAlgorithm m; Key := Key m;
     Timeout := Timeout m; MaxRefresh := MaxRefresh m;
     Authenticator := Authenticator m; Authorizator := v;
     StoreToken := StoreToken m; RemoveToken := RemoveToken m;
     PayloadFunc := PayloadFunc m; TokenExtractor := TokenExtractor m;
     TokenName := TokenName m; TokenEnvName := TokenEnvName m;
     LoginCallback := LoginCallback m; RefreshCallback := RefreshCallback m |}.

Definition set_LoginCallback
    (v : option (string -> Request -> ResponseWriter -> ResponseWriter))
    (m : JWTMiddleware) : JWTMiddleware :=
  {| Realm := Realm m; SigningAlgorithm := SigningAlgorithm m; Key := Key m;
     Timeout := Timeout m; MaxRefresh := MaxRefresh m;
     Authenticator := Authenticator m; Authorizator := Authorizator m;
     StoreToken := StoreToken m; RemoveToken := RemoveToken m;
     PayloadFunc := PayloadFunc m; TokenExtractor := TokenExtractor m;
     TokenName := TokenName m; TokenEnvName := TokenEnvName m;
     LoginCallback := v; RefreshCallback := RefreshCallback m |}.

Definition set_RefreshCallback
    (v : option (string -> Request -> ResponseWriter -> ResponseWriter))
    (m : JWTMiddleware) : JWTMiddleware :=
  {| Realm := Realm m; SigningAlgorithm := SigningAlgorithm m; Key := Key m;
     Timeout := Timeout m; MaxRefresh := MaxRefresh m;
     Authenticator := Authenticator m; Authorizator := Authorizator m;
     StoreToken := StoreToken m; RemoveToken := RemoveToken m;
     PayloadFunc := PayloadFunc m; TokenExtractor := TokenExtractor m;
     TokenName := TokenName m; TokenEnvName := TokenEnvName m;
     LoginCallback := LoginCallback m; RefreshCallback := v |}.

(** [if cond(mw) { act }] *)
Definition when (cond : JWTMiddleware -> bool) (act : M unit) : M unit :=
  m <- get_mw ;; if cond m then act else ret tt.

Definition is_nil {A} (o : option A) : bool :=
  match o with None => true | Some _ => false end.

(** [MiddlewareFunc] fills the defaults into the struct behind [mw] and
    returns the gate around [handler]. *)
Definition MiddlewareFunc
    (handler : ResponseWriter -> Request -> ResponseWriter) : M (M unit) :=
  when (fun m => bool_decide (TokenName m = EmptyString))
       (set_mw (set_TokenName "Authorization")) ;;;
  when (fun m => bool_decide (TokenEnvName m = EmptyString))
       (set_mw (set_TokenEnvName "AUTH_TOKEN")) ;;;
  when (fun m => bool_decide (Realm m = EmptyString))
       (log_Fatal "Realm is required") ;;;
  when (fun m => bool_decide (SigningAlgorithm m = EmptyString))
       (set_mw (set_SigningAlgorithm "HS256")) ;;;
  when (fun m => is_nil (Key m)) (log_Fatal "Key required") ;;;
  when (fun m => Timeout m =? 0) (set_mw (set_Timeout Hour)) ;;;
  when (fun m => is_nil (Authenticator m))
       (log_Fatal "Authenticator is required") ;;;
  when (fun m => is_nil (TokenExtractor m))
       (set_mw (set_TokenExtractor (Some DefaultExtractor))) ;;;
  when (fun m => is_nil (Authorizator m))
       (set_mw (set_Authorizator (Some (fun _ _ => true)))) ;;;
  when (fun m => is_nil (LoginCallback m))
       (set_mw (set_LoginCallback (Some defaultResponseCallback))) ;;;
  when (fun m => is_nil (RefreshCallback m))
       (set_mw (set_RefreshCallback (Some defaultResponseCallback))) ;;;
  ret (middlewareImpl handler).

End Middleware.

(** ** A small instance of the libraries, and the scenario of the package's
    documentation: Timeout of one hour, MaxRefresh of two hours *)

Definition quote : string := String (ascii_of_nat 34) EmptyString.

Definition render_value (v : Value) : string :=
  match v with
  | VNil => "null"
  | VBool b => if b then "true" else "false"
  | VString s => s
  | VInt64 n => pretty n
  | VFloat64 f => pretty (Qnum f) ++ "/" ++ pretty (Z.pos (Qden f))
  | VJson raw => raw
  | VUnsupported => "?"
  end.

Definition render_claims (c : gmap string Value) : string :=
  foldr (fun kv acc => kv.1 ++ "=" ++ render_value kv.2 ++ ";" ++ acc)
        EmptyString (map_to_list c).

Definition toy_Sign (method signed : string) (key : option (list Byte.byte))
  : option string :=
  match key with
  | Some _ => Some ("mac(" ++ method ++ "," ++ signed ++ ")")
  | None => None
  end.

Definition toy_token (alg : string) (c : gmap string Value) : string :=
  let signed := alg ++ "." ++ render_claims c in
  signed ++ "." ++ "mac(" ++ alg ++ "," ++ signed ++ ")".

(** The tokens the toy decoder knows, by algorithm and claims. *)
Definition toy_decode (known : list (string * gmap string Value))
    (tokenString : string)
  : option (string * gmap string Value * string * string) :=
  match
    List.find (fun ac => bool_decide (toy_token ac.1 ac.2 = tokenString)) known
  with
  | Some ac =>
      let signed := ac.1 ++ "." ++ render_claims ac.2 in
      Some (ac.1, ac.2, signed, "mac(" ++ ac.1 ++ "," ++ signed ++ ")")
  | None => None
  end.

Definition toy_DecodeJsonPayload (body : string) : option login :=
  match SplitN2 body with
  | [u; p] => Some {| Username := u; Password := p |}
  | _ => None
  end.

Definition toy (known : list (string * gmap string Value)) : Libraries :=
  {| registered := fun alg => bool_decide (alg ∈ ["HS256"; "HS384"; "HS512"]);
     encode_segments := fun alg c => alg ++ "." ++ render_claims c;
     Sign := toy_Sign;
     Verify := fun m signed sig key =>
                 bool_decide (toy_Sign m signed key = Some sig);
     decode_token := toy_decode known;
     DecodeJsonPayload := toy_DecodeJsonPayload |}.

Definition example_mw : JWTMiddleware :=
  {| Realm := "test zone"; SigningAlgorithm := "HS256";
     Key := Some [Byte.x73; Byte.x33; Byte.x63];
     Timeout := Hour; MaxRefresh := 2 * Hour;
     Authenticator :=
       Some (fun u p => bool_decide (u = "alice") && bool_decide (p = "secret"));
     Authorizator := Some (fun _ _ => true);
     StoreToken := true; RemoveToken := true;
     PayloadFunc := None;
     TokenExtractor := Some DefaultExtractor;
     TokenName := "Authorization"; TokenEnvName := "AUTH_TOKEN";
     LoginCallback := Some defaultResponseCallback;
     RefreshCallback := Some defaultResponseCallback |}.

Definition fresh_writer : ResponseWriter :=
  {| headers := ∅; status := None; body := [] |}.

(** A request that carries [authorization] in its Authorization header. *)
Definition example_request (authorization body : string) : Request :=
  {| Header := fun name =>
       if bool_decide (name = "Authorization") then authorization
       else EmptyString;
     Body := body; Env := ∅ |}.

(** The world of one request, handled while the clock shows [seconds]. *)
Definition example_world (m : JWTMiddleware) (r : Request) (seconds : Z)
  : World :=
  {| mw := m; writer := fresh_writer; request := r;
     clock := fun _ => seconds * Second; ticks := 0; trace := [] |}.

(** Token A of the scenario: login of alice at second 0. *)
Definition claimsA : gmap string Value :=
  <["id" := VString "alice"]>
    (<["exp" := VFloat64 (inject_Z 3600)]>
       (<["orig_iat" := VFloat64 (inject_Z 0)]> ∅)).

(** Token B: token A refreshed at second 3000. *)
Definition claimsB : gmap string Value :=
  <["id" := VString "alice"]>
    (<["exp" := VFloat64 (inject_Z 6600)]>
       (<["orig_iat" := VFloat64 (inject_Z 0)]> ∅)).

(** A token signed by another holder of the key, without [id] and
    [orig_iat]. *)
Definition claimsX : gmap string Value :=
  <["exp" := VFloat64 (inject_Z 3600)]> ∅.

Definition known_tokens : list (string * gmap string Value) :=
  [("HS256", claimsA); ("HS256", claimsB); ("HS256", claimsX)].

Definition bearer (c : gmap string Value) : string :=
  "Bearer " ++ toy_token "HS256" c.

Definition no_handler (writer : ResponseWriter) (request : Request)
  : ResponseWriter := writer.

(** Token C: token B refreshed once more at second 6000. *)
Definition claimsC : gmap string Value :=
  <["id" := VString "alice"]>
    (<["exp" := VFloat64 (inject_Z 9600)]>
       (<["orig_iat" := VFloat64 (inject_Z 0)]> ∅)).

(** Token N: what a login hands out while refresh is disabled. *)
Definition claimsN : gmap string Value :=
  <["id" := VString "alice"]> (<["exp" := VFloat64 (inject_Z 3600)]> ∅).

Definition example_tokens : list (string * gmap string Value) :=
  ("HS256", claimsC) :: ("HS256", claimsN) :: known_tokens.

(** The library instance of the examples. *)
Definition example_libraries : Libraries := toy example_tokens.

(** A token of the examples as [jwt.Parse] returns it. *)
Definition example_token (c : gmap string Value) : Token :=
  {| Raw := toy_token "HS256" c; Method := "HS256"; Claims := c |}.

(** The world of a request that presents the token with claims [c]. *)
Definition bearer_world (m : JWTMiddleware) (c : gmap string Value)
    (seconds : Z) : World :=
  example_world m (example_request (bearer c) EmptyString) seconds.

(** The world of a login request with the given body. *)
Definition login_world (m : JWTMiddleware) (body : string) (seconds : Z)
  : World :=
  example_world m (example_request EmptyString body) seconds.

(** A claims provider that supplies a role and, colliding with a reserved
    key, an [orig_iat] of its own. *)
Definition colliding_payload (userId : string) : gmap string Value :=
  <["role" := VString "admin"]> (<["orig_iat" := VInt64 12345]> ∅).

(** The example configuration with refresh disabled and that provider. *)
Definition colliding_mw : JWTMiddleware :=
  {| Realm := Realm example_mw; SigningAlgorithm := SigningAlgorithm example_mw;
     Key := Key example_mw; Timeout := Timeout example_mw; MaxRefresh := 0;
     Authenticator := Authenticator example_mw;
     Authorizator := Authorizator example_mw;
     StoreToken := false; RemoveToken := false;
     PayloadFunc := Some colliding_payload;
     TokenExtractor := TokenExtractor example_mw;
     TokenName := TokenName example_mw;
     TokenEnvName := TokenEnvName example_mw;
     LoginCallback := LoginCallback example_mw;
     RefreshCallback := RefreshCallback example_mw |}.

(** The example configuration with refresh disabled. *)
Definition norefresh_mw : JWTMiddleware :=
  {| Realm := Realm example_mw; SigningAlgorithm := SigningAlgorithm example_mw;
     Key := Key example_mw; Timeout := Timeout example_mw; MaxRefresh := 0;
     Authenticator := Authenticator example_mw;
     Authorizator := Authorizator example_mw;
     StoreToken := StoreToken example_mw; RemoveToken := RemoveToken example_mw;
     PayloadFunc := PayloadFunc example_mw;
     TokenExtractor := TokenExtractor example_mw;
     TokenName := TokenName example_mw;
     TokenEnvName := TokenEnvName example_mw;
     LoginCallback := LoginCallback example_mw;
     RefreshCallback := RefreshCallback example_mw |}.

(** A claims provider that hands back a value with no JSON encoding. *)
Definition unencodable_payload (userId : string) : gmap string Value :=
  <["session" := VUnsupported]> ∅.

Definition unencodable_mw : JWTMiddleware :=
  {| Realm := Realm example_mw; SigningAlgorithm := SigningAlgorithm example_mw;
     Key := Key example_mw; Timeout := Timeout example_mw;
     MaxRefresh := MaxRefresh example_mw;
     Authenticator := Authenticator example_mw;
     Authorizator := Authorizator example_mw;
     StoreToken := StoreToken example_mw; RemoveToken := RemoveToken example_mw;
     PayloadFunc := Some unencodable_payload;
     TokenExtractor := TokenExtractor example_mw;
     TokenName := TokenName example_mw;
     TokenEnvName := TokenEnvName example_mw;
     LoginCallback := LoginCallback example_mw;
     RefreshCallback := RefreshCallback example_mw |}.

(** The example configuration with a misspelt signing algorithm. *)
Definition misspelt_mw : JWTMiddleware :=
  set_SigningAlgorithm "HS257" example_mw.

(** An Authorizator that lets nobody in. *)
Definition closed_mw : JWTMiddleware :=
  set_Authorizator (Some (fun _ _ => false)) example_mw.

(** The example configuration with the raw token stored under the key of
    the claims. *)
Definition payload_env_mw : JWTMiddleware :=
  set_TokenEnvName "JWT_PAYLOAD" example_mw.

(** ** Vocabulary of the properties *)

(** The response that [unauthorized] leaves in the writer. *)
Definition unauthorized_response (realm : string) (writer : ResponseWriter)
  : ResponseWriter :=
  rest_Error "Not Authorized" StatusUnauthorized
    (Header_Set "WWW-Authenticate" ("JWT realm=" ++ realm) writer).

(** The events by which a request gets through: the wrapped handler runs, or
    a token string is handed to a response callback. *)
Definition is_admission (e : Event) : bool :=
  match e with
  | EvHandler | EvLoginCallback _ | EvRefreshCallback _ => true
  | _ => false
  end.

(** The request got through between the worlds [w] and [w']. *)
Definition admitted (w w' : World) : Prop :=
  ∃ evs : list Event,
    trace w' = (trace w ++ evs)%list ∧
    Exists (fun e => is_admission e = true) evs.

(** A run rejects the request: it returns normally, the writer holds the
    uniform unauthorized response, and the request did not get through: the
    wrapped handler did not run and no token was handed out. *)
Definition Rejected (w : World) (run : Outcome unit * World) : Prop :=
  run.1 = Ret tt ∧
  writer run.2 = unauthorized_response (Realm (mw w)) (writer w) ∧
  ∃ evs : list Event,
    trace run.2 = (trace w ++ evs)%list ∧
    Forall (fun e => is_admission e = false) evs.

(** Two worlds differ at most in the number of clock readings taken. *)
Definition same_but_ticks (w w' : World) : Prop :=
  mw w' = mw w ∧ writer w' = writer w ∧ request w' = request w ∧
  clock w' = clock w ∧ trace w' = trace w.

(** The fields that [MiddlewareFunc] never assigns. *)
Definition same_required (m m' : JWTMiddleware) : Prop :=
  Realm m' = Realm m ∧ Key m' = Key m ∧ MaxRefresh m' = MaxRefresh m ∧
  Authenticator m' = Authenticator m ∧ StoreToken m' = StoreToken m ∧
  RemoveToken m' = RemoveToken m ∧ PayloadFunc m' = PayloadFunc m.

(** The struct with every default of [MiddlewareFunc] filled in. *)
Definition with_defaults (m : JWTMiddleware) : JWTMiddleware :=
  {| Realm := Realm m;
     SigningAlgorithm :=
       if bool_decide (SigningAlgorithm m = EmptyString) then "HS256"
       else SigningAlgorithm m;
     Key := Key m;
     Timeout := if Timeout m =? 0 then Hour else Timeout m;
     MaxRefresh := MaxRefresh m;
     Authenticator := Authenticator m;
     Authorizator :=
       match Authorizator m with
       | Some f => Some f
       | None => Some (fun _ _ => true)
       end;
     StoreToken := StoreToken m; RemoveToken := RemoveToken m;
     PayloadFunc := PayloadFunc m;
     TokenExtractor :=
       match TokenExtractor m with
       | Some e => Some e
       | None => Some DefaultExtractor
       end;
     TokenName :=
       if bool_decide (TokenName m = EmptyString) then "Authorization"
       else TokenName m;
     TokenEnvName :=
       if bool_decide (TokenEnvName m = EmptyString) then "AUTH_TOKEN"
       else TokenEnvName m;
     LoginCallback :=
       match LoginCallback m with
       | Some f => Some f
       | None => Some defaultResponseCallback
       end;
     RefreshCallback :=
       match RefreshCallback m with
       | Some f => Some f
       | None => Some defaultResponseCallback
       end |}.

(** No field that [MiddlewareFunc] would default holds its zero value. *)
Definition defaults_set (m : JWTMiddleware) : bool :=
  negb (bool_decide (TokenName m = EmptyString))
  && negb (bool_decide (TokenEnvName m = EmptyString))
  && negb (bool_decide (SigningAlgorithm m = EmptyString))
  && negb (Timeout m =? 0)
  && negb (is_nil (TokenExtractor m)) && negb (is_nil (Authorizator m))
  && negb (is_nil (LoginCallback m)) && negb (is_nil (RefreshCallback m)).

(** The struct literal of an application that sets the required fields only. *)
Definition bare_mw : JWTMiddleware :=
  {| Realm := "test zone"; SigningAlgorithm := EmptyString;
     Key := Some [Byte.x73; Byte.x33; Byte.x63];
     Timeout := 0; MaxRefresh := 0;
     Authenticator :=
       Some (fun u p => bool_decide (u = "alice") && bool_decide (p = "secret"));
     Authorizator := None;
     StoreToken := false; RemoveToken := false;
     PayloadFunc := None; TokenExtractor := None;
     TokenName := EmptyString; TokenEnvName := EmptyString;
     LoginCallback := None; RefreshCallback := None |}.

(** The world with the struct behind [mw] replaced. *)
Definition with_mw (m : JWTMiddleware) (w : World) : World :=
  {| mw := m; writer := writer w; request := request w;
     clock := clock w; ticks := ticks w; trace := trace w |}.

(** One defaulting assignment: [if cond(mw) { mw = update(mw) }]. *)
Definition default_step (cond : JWTMiddleware -> bool)
    (update : JWTMiddleware -> JWTMiddleware) (m : JWTMiddleware)
  : JWTMiddleware :=
  if cond m then update m else m.

(** The struct passes the three fatal checks of [MiddlewareFunc]. *)
Definition well_configured (m : JWTMiddleware) : bool :=
  negb (bool_decide (Realm m = EmptyString)) && negb (is_nil (Key m))
  && negb (is_nil (Authenticator m)).

(** The claims that [RefreshHandler] signs for a presented token with claims
    [old]: every entry of [old], then the three reserved ones. *)
Definition refreshed_claims (old : gmap string Value) (origIat exp : Z)
  : gmap string Value :=
  <["orig_iat" := VInt64 origIat]>
    (<["exp" := VInt64 exp]> (<["id" := index old "id"]> old)).

(** The claims that [LoginHandler] signs for a user: the entries of the
    claims provider, then the reserved ones. *)
Definition login_claims (provided : gmap string Value) (username : string)
    (exp : Z) (origIat : option Z) : gmap string Value :=
  let c := <["exp" := VInt64 exp]> (<["id" := VString username]> provided) in
  match origIat with
  | Some t => <["orig_iat" := VInt64 t]> c
  | None => c
  end.

(** What the claims provider contributes for a user. *)
Definition provided_claims (m : JWTMiddleware) (username : string)
  : gmap string Value :=
  match PayloadFunc m with
  | Some payload => payload username
  | None => ∅
  end.

(** The string holds a space. *)
Fixpoint has_space (s : string) : bool :=
  match s with
  | EmptyString => false
  | String c rest => Ascii.eqb c " "%char || has_space rest
  end.

(** The claims loop of the handlers run over the entries in the order [l]:
    Go ranges over a map in no particular order. *)
Definition copy_in_order (l : list (string * Value)) (dst : gmap string Value)
  : gmap string Value :=
  foldr (fun kv acc => <[kv.1 := kv.2]> acc) dst l.

(** The values a JSON decoder can produce. *)
Definition is_json (v : Value) : bool :=
  match v with
  | VInt64 _ | VUnsupported => false
  | _ => true
  end.

(** * Properties *)

(** ** Scalars *)

Lemma round53_small a : 0 <= a <= 2 ^ 53 -> round53 a = a.
Proof.
  intros [H0 H1]. unfold round53.
  destruct (Z.eq_dec a 0) as [->|Hne]; [reflexivity|].
  assert (Hlog : Z.log2 a <= 53).
  { transitivity (Z.log2 (2 ^ 53)); [apply Z.log2_le_mono; lia|].
    rewrite Z.log2_pow2; lia. }
  destruct (Z.eq_dec (Z.log2 a) 53) as [He|Hn].
  - assert (a = 2 ^ 53) as ->.
    { pose proof (Z.log2_spec a ltac:(lia)) as [Hl _]. rewrite He in Hl. lia. }
    vm_compute. reflexivity.
  - replace (Z.log2 a + 1 - 53 <=? 0) with true; [reflexivity|].
    symmetry. apply Z.leb_le. lia.
Qed.

Lemma exact_float64_small n : - 2 ^ 53 <= n <= 2 ^ 53 -> exact_float64 n.
Proof.
  intros H. unfold exact_float64, float64_of_int64. f_equal.
  destruct (n <? 0) eqn:E.
  - apply Z.ltb_lt in E. rewrite round53_small; lia.
  - apply Z.ltb_ge in E. apply round53_small; lia.
Qed.

Lemma int64_of_float64_inject n :
  in_int64 n = true -> int64_of_float64 (inject_Z n) = n.
Proof.
  intros H. unfold int64_of_float64, inject_Z. simpl.
  rewrite Z.quot_1_r. rewrite H. reflexivity.
Qed.



(** ** Copy loops *)

Lemma lookup_copy_entries (src dst : gmap string Value) (k : string) :
  copy_entries src dst !! k = (src ∪ dst) !! k.
Proof.
  unfold copy_entries. revert k.
  apply (map_fold_weak_ind
           (fun r (m : gmap string Value) => forall k, r !! k = (m ∪ dst) !! k)).
  - intros k. by rewrite (left_id_L ∅ (∪)).
  - intros i x m r Hi IH k.
    rewrite <- insert_union_l.
    destruct (decide (i = k)) as [->|Hne].
    + by rewrite !lookup_insert_eq.
    + rewrite !lookup_insert_ne by done. apply IH.
Qed.

Lemma copy_entries_empty (src : gmap string Value) : copy_entries src ∅ = src.
Proof.
  apply map_eq. intros k. rewrite lookup_copy_entries.
  by rewrite (right_id_L ∅ (∪)).
Qed.

Section Properties.
Context {L : Libraries}.

(** ** The monad *)

Lemma unauthorized_run w :
  (unauthorized w).1 = Ret tt ∧
  writer (unauthorized w).2 = unauthorized_response (Realm (mw w)) (writer w) ∧
  mw (unauthorized w).2 = mw w ∧ request (unauthorized w).2 = request w ∧
  trace (unauthorized w).2 = trace w.
Proof. repeat split. Qed.

Lemma unauthorized_Rejected w0 w evs :
  mw w = mw w0 -> writer w = writer w0 ->
  trace w = (trace w0 ++ evs)%list ->
  Forall (fun e => is_admission e = false) evs ->
  Rejected w0 (unauthorized w).
Proof.
  intros Hm Hw Ht Hevs. unfold Rejected. simpl. rewrite Hm, Hw.
  split_and!; [done..|]. by exists evs.
Qed.

Lemma admitted_not_Rejected w run : admitted w run.2 -> ¬ Rejected w run.
Proof.
  intros (evs & Ht & Hex) (_ & _ & evs' & Ht' & Hall).
  rewrite Ht in Ht'. apply app_inv_head in Ht'. subst evs'.
  apply Exists_exists in Hex as (e & Hin & He).
  rewrite Forall_forall in Hall. specialize (Hall e Hin). congruence.
Qed.

Lemma jwt_Parse_frame s k w : same_but_ticks w (jwt_Parse s k w).2.
Proof.
  unfold jwt_Parse, same_but_ticks.
  destruct (decode_token s) as [[[[alg c] signed] sig]|]; [|done].
  destruct (GetSigningMethod alg); [|done].
  destruct (k _); [|done].
  unfold bind, time_Now. simpl.
  destruct (_ && _); done.
Qed.

Lemma parseToken_frame w : same_but_ticks w (parseToken w).2.
Proof.
  unfold parseToken, bind, get_mw, get_request, call. simpl.
  destruct (TokenExtractor (mw w)); [|done]. simpl.
  destruct (run_extractor _ _ _); [|done].
  apply jwt_Parse_frame.
Qed.

(** [parseToken] returns normally unless no extractor is configured. *)
Lemma parseToken_no_fatal w msg : (parseToken w).1 ≠ Fatal msg.
Proof.
  unfold parseToken, bind, get_mw, get_request, call. simpl.
  destruct (TokenExtractor (mw w)); [|done]. simpl.
  destruct (run_extractor _ _ _); [|done].
  unfold jwt_Parse.
  destruct (decode_token _) as [[[[alg c] signed] sig]|]; [|done].
  destruct (GetSigningMethod alg); [|done].
  destruct (keyFunc _ _); [|done].
  unfold bind, time_Now. simpl.
  destruct (_ && _); done.
Qed.

(** ** C8: who writes the configuration *)

Ltac run_parse w w1 Hp :=
  let F := fresh "F" in
  pose proof (parseToken_frame w) as F;
  pose proof (parseToken_no_fatal w) as Hp;
  destruct (parseToken w) as [[[?token|?e]|?msg|?msg] w1];
  simpl in F, Hp;
  [ clear Hp | clear Hp | clear Hp | exfalso; by eapply Hp ];
  destruct F as (Fm & Fw & Fr & Fc & Ft).

Lemma middlewareImpl_mw h w : mw (middlewareImpl h w).2 = mw w.
Proof.
  unfold middlewareImpl, bind. run_parse w w1 Hp; simpl; try done.
  unfold assert_string.
  destruct (index (Claims token) "id"); simpl; try done.
  unfold call. destruct (Authorizator (mw w1)); simpl; try done.
  destruct (negb _); simpl; done.
Qed.

Lemma loginToken_mw m lv w : mw (loginToken m lv w).2 = mw w.
Proof.
  unfold loginToken, bind, jwt_New.
  destruct (GetSigningMethod _); simpl; [|done].
  destruct (PayloadFunc m); simpl; destruct (bool_decide _); simpl; done.
Qed.

Lemma LoginHandler_mw w : mw (LoginHandler w).2 = mw w.
Proof.
  unfold LoginHandler, bind. simpl.
  destruct (DecodeJsonPayload _) as [lv|]; simpl; [|done].
  unfold call. destruct (Authenticator (mw w)) as [a|]; simpl; [|done].
  destruct (negb _); simpl; [done|].
  match goal with |- context [loginToken ?m ?l ?w0] =>
    pose proof (loginToken_mw m l w0) as Hl;
    destruct (loginToken m l w0) as [[tok|?|?] w1] end; simpl in *; try done.
  destruct (SignedString tok _); simpl; [|done].
  destruct (StoreToken (mw w)); simpl;
    destruct (LoginCallback (mw w)); simpl; done.
Qed.

Lemma RefreshHandler_mw w : mw (RefreshHandler w).2 = mw w.
Proof.
  unfold RefreshHandler, bind. run_parse w w1 Hp; simpl; try done.
  unfold assert_float64.
  destruct (index (Claims token) "orig_iat"); simpl; try done.
  destruct (_ <? _); simpl; [done|].
  unfold refreshToken, bind, jwt_New.
  destruct (GetSigningMethod _); simpl; [|done].
  destruct (SignedString _ _); simpl; [|done].
  unfold assert_string.
  match goal with |- context [index ?c "id"] => destruct (index c "id") end;
    simpl; try done.
  destruct (StoreToken (mw w1)); destruct (RemoveToken (mw w1)); simpl;
    destruct (RefreshCallback (mw w1)); simpl; done.
Qed.

Lemma MiddlewareFunc_required h w :
  same_required (mw w) (mw (MiddlewareFunc h w).2).
Proof.
  destruct w as [[realm alg key tmo mr authn authz st rm pf ex tn ten lc rc]
                   wr rq ck tk tr].
  unfold same_required.
  cbv [MiddlewareFunc when bind get_mw set_mw log_Fatal ret]. simpl.
  destruct (bool_decide (tn = EmptyString)); simpl;
  destruct (bool_decide (ten = EmptyString)); simpl;
  (destruct (bool_decide (realm = EmptyString)); simpl; [done|]);
  destruct (bool_decide (alg = EmptyString)); simpl;
  (destruct key; simpl; [|done]);
  destruct (tmo =? 0); simpl;
  (destruct authn; simpl; [|done]);
  destruct ex, authz, lc, rc; simpl; done.
Qed.

Ltac proj_simpl :=
  cbn [mw writer request clock ticks trace with_mw fst snd is_nil
       Realm SigningAlgorithm Key Timeout MaxRefresh Authenticator
       Authorizator StoreToken RemoveToken PayloadFunc TokenExtractor
       TokenName TokenEnvName LoginCallback RefreshCallback
       set_TokenName set_TokenEnvName set_SigningAlgorithm set_Timeout
       set_TokenExtractor set_Authorizator set_LoginCallback
       set_RefreshCallback].

Ltac split_ifs :=
  repeat (match goal with
          | |- context [if ?c then _ else _] => destruct c
          end; proj_simpl).

Lemma when_set_run cond update w :
  when cond (set_mw update) w
  = (Ret tt, with_mw (default_step cond update (mw w)) w).
Proof.
  unfold when, bind, get_mw, set_mw, ret, with_mw, default_step.
  destruct w as [m wr rq ck tk tr]. simpl. by destruct (cond m).
Qed.

Lemma when_fatal_run cond msg w :
  cond (mw w) = false -> when cond (log_Fatal msg) w = (Ret tt, w).
Proof. intros H. unfold when, bind, get_mw. simpl. by rewrite H. Qed.

Lemma default_step_required cond update m :
  (forall m0, same_required m0 (update m0)) ->
  same_required m (default_step cond update m).
Proof.
  intros H. unfold default_step. destruct (cond m); [apply H|].
  by repeat split.
Qed.

(** The defaulting assignments of [MiddlewareFunc], in program order. *)
Lemma defaults_in_order m :
  default_step (fun m => is_nil (RefreshCallback m))
    (set_RefreshCallback (Some defaultResponseCallback))
    (default_step (fun m => is_nil (LoginCallback m))
       (set_LoginCallback (Some defaultResponseCallback))
       (default_step (fun m => is_nil (Authorizator m))
          (set_Authorizator (Some (fun _ _ => true)))
          (default_step (fun m => is_nil (TokenExtractor m))
             (set_TokenExtractor (Some DefaultExtractor))
             (default_step (fun m => Timeout m =? 0) (set_Timeout Hour)
                (default_step
                   (fun m => bool_decide (SigningAlgorithm m = EmptyString))
                   (set_SigningAlgorithm "HS256")
                   (default_step
                      (fun m => bool_decide (TokenEnvName m = EmptyString))
                      (set_TokenEnvName "AUTH_TOKEN")
                      (default_step
                         (fun m => bool_decide (TokenName m = EmptyString))
                         (set_TokenName "Authorization") m)))))))
  = with_defaults m.
Proof.
  destruct m as [realm alg key tmo mr authn authz st rm pf ex tn ten lc rc].
  unfold default_step, with_defaults. proj_simpl.
  destruct (bool_decide (tn = EmptyString)); proj_simpl;
  destruct (bool_decide (ten = EmptyString)); proj_simpl;
  destruct (bool_decide (alg = EmptyString)); proj_simpl;
  destruct (tmo =? 0); proj_simpl;
  destruct ex; proj_simpl; destruct authz; proj_simpl;
  destruct lc; proj_simpl; destruct rc; reflexivity.
Qed.

Lemma MiddlewareFunc_defaults h w :
  well_configured (mw w) = true ->
  (MiddlewareFunc h w).1 = Ret (middlewareImpl h) ∧
  mw (MiddlewareFunc h w).2 = with_defaults (mw w).
Proof.
  intros H. unfold well_configured in H.
  apply andb_prop in H as [H Hauth]. apply andb_prop in H as [Hrealm Hkey].
  apply negb_true_iff in Hauth, Hrealm, Hkey.
  rewrite <- defaults_in_order.
  destruct (MiddlewareFunc h w) as [o w'] eqn:E. revert E.
  unfold MiddlewareFunc.
  unfold bind at 1. rewrite when_set_run.
  unfold bind at 1. rewrite when_set_run. proj_simpl.
  unfold bind at 1. rewrite when_fatal_run
    by (proj_simpl; unfold default_step; split_ifs; done).
  unfold bind at 1. rewrite when_set_run. proj_simpl.
  unfold bind at 1. rewrite when_fatal_run
    by (proj_simpl; unfold default_step; split_ifs; done).
  unfold bind at 1. rewrite when_set_run. proj_simpl.
  unfold bind at 1. rewrite when_fatal_run
    by (proj_simpl; unfold default_step; split_ifs; done).
  unfold bind at 1. rewrite when_set_run. proj_simpl.
  unfold bind at 1. rewrite when_set_run. proj_simpl.
  unfold bind at 1. rewrite when_set_run. proj_simpl.
  unfold bind at 1. rewrite when_set_run. proj_simpl.
  unfold ret. intros [= <- <-]. proj_simpl. split; reflexivity.
Qed.

Lemma with_defaults_idempotent m :
  with_defaults (with_defaults m) = with_defaults m.
Proof.
  destruct m as [realm alg key tmo mr authn authz st rm pf ex tn ten lc rc].
  unfold with_defaults. simpl.
  destruct (bool_decide (tn = EmptyString)) eqn:E1,
    (bool_decide (ten = EmptyString)) eqn:E2,
    (bool_decide (alg = EmptyString)) eqn:E3, (tmo =? 0) eqn:E4,
    ex, authz, lc, rc; simpl; rewrite ?E1, ?E2, ?E3, ?E4; done.
Qed.

Lemma with_defaults_id m : defaults_set m = true -> with_defaults m = m.
Proof.
  destruct m as [realm alg key tmo mr authn authz st rm pf ex tn ten lc rc].
  unfold defaults_set, with_defaults. simpl. intros H.
  destruct (bool_decide (tn = EmptyString)); [done|].
  destruct (bool_decide (ten = EmptyString)); [done|].
  destruct (bool_decide (alg = EmptyString)); [done|].
  destruct (tmo =? 0); [done|].
  destruct ex; [|done]. destruct authz; [|done].
  destruct lc; [|done]. destruct rc; [|done]. done.
Qed.

(** C8 (amended): the request gate, the login handler and the refresh
    handler leave the configuration exactly as they found it.
    [MiddlewareFunc] is the one operation that writes it: it never touches
    the realm, the key, the max-refresh duration, the authenticator, the
    store hooks and the claims provider, and on a struct that passes its
    three fatal checks it fills the defaults into the fields that hold their
    zero value, so that a struct with all of them set, in particular the
    struct after a first call, is left unchanged. *)
Theorem C8_configuration_frame
    (handler : ResponseWriter -> Request -> ResponseWriter) (w : World) :
  mw (middlewareImpl handler w).2 = mw w ∧
  mw (LoginHandler w).2 = mw w ∧
  mw (RefreshHandler w).2 = mw w ∧
  same_required (mw w) (mw (MiddlewareFunc handler w).2) ∧
  (well_configured (mw w) = true ->
   mw (MiddlewareFunc handler w).2 = with_defaults (mw w)) ∧
  (defaults_set (mw w) = true -> with_defaults (mw w) = mw w) ∧
  with_defaults (with_defaults (mw w)) = with_defaults (mw w).
Proof.
  split_and!.
  - apply middlewareImpl_mw.
  - apply LoginHandler_mw.
  - apply RefreshHandler_mw.
  - apply MiddlewareFunc_required.
  - intros H. by apply MiddlewareFunc_defaults.
  - apply with_defaults_id.
  - apply with_defaults_idempotent.
Qed.

(** ** C7 and C10: the uniform rejection *)

Ltac reject_with evs :=
  left; apply (unauthorized_Rejected _ _ evs); simpl;
  [ congruence | congruence
  | try rewrite app_nil_r; try rewrite <- app_assoc; simpl; congruence
  | repeat constructor ].

Ltac admit_with evs :=
  right; exists evs; simpl; split;
  [ try rewrite <- !app_assoc; simpl; congruence
  | repeat first [ apply Exists_cons_hd; reflexivity | apply Exists_cons_tl ] ].

Lemma middlewareImpl_verdict h w :
  (middlewareImpl h w).1 = Ret tt ->
  Rejected w (middlewareImpl h w) ∨ admitted w (middlewareImpl h w).2.
Proof.
  unfold middlewareImpl, bind. run_parse w w1 Hp; simpl; try done.
  - unfold assert_string.
    destruct (index (Claims token) "id") as [| | id | | | |]; simpl; try done.
    unfold call. destruct (Authorizator (mw w1)) as [authz|]; simpl; try done.
    destruct (negb _); simpl; intros _.
    + reject_with [EvAuthorizator id].
    + admit_with [EvAuthorizator id; EvHandler].
  - intros _. reject_with (@nil Event).
Qed.

Lemma loginToken_frame m lv w :
  mw (loginToken m lv w).2 = mw w ∧ writer (loginToken m lv w).2 = writer w ∧
  request (loginToken m lv w).2 = request w ∧
  clock (loginToken m lv w).2 = clock w ∧
  ∃ evs : list Event,
    trace (loginToken m lv w).2 = (trace w ++ evs)%list ∧
    Forall (fun e => is_admission e = false) evs.
Proof.
  unfold loginToken, bind, jwt_New.
  destruct (GetSigningMethod _); simpl.
  - destruct (PayloadFunc m); simpl; destruct (bool_decide _); simpl;
      split_and!; try done;
      first [ by exists [EvPayloadFunc (Username lv)]; split; [|repeat constructor]
            | by exists []; rewrite app_nil_r ].
  - split_and!; try done. exists []. by rewrite app_nil_r.
Qed.

Lemma LoginHandler_verdict w :
  (LoginHandler w).1 = Ret tt ->
  Rejected w (LoginHandler w) ∨ admitted w (LoginHandler w).2.
Proof.
  unfold LoginHandler, bind. simpl.
  destruct (DecodeJsonPayload _) as [lv|]; simpl.
  2: { intros _. reject_with (@nil Event). }
  unfold call. destruct (Authenticator (mw w)) as [a|]; simpl; [|done].
  destruct (negb _); simpl.
  { intros _. reject_with [EvAuthenticator (Username lv) (Password lv)]. }
  match goal with |- context [loginToken ?m ?l ?w0] =>
    pose proof (loginToken_frame m l w0) as (Fm & Fw & Fr & Fc & evs & Ft & Fe);
    destruct (loginToken m l w0) as [[tok|?|?] w1] end; simpl in *; try done.
  destruct (SignedString tok _) as [tokenString|]; simpl.
  2: { intros _. left.
       apply (unauthorized_Rejected _ _
                (EvAuthenticator (Username lv) (Password lv) :: evs));
         simpl; [congruence..| |by constructor].
       rewrite Ft, <- app_assoc. done. }
  destruct (StoreToken (mw w)); simpl;
    (destruct (LoginCallback (mw w)); simpl; [intros _|done]);
    right; eexists; simpl; rewrite Ft, <- !app_assoc; simpl;
    (split; [reflexivity|]);
    apply Exists_cons_tl, Exists_app; right;
    repeat first [ apply Exists_cons_hd; reflexivity | apply Exists_cons_tl ].
Qed.

Lemma RefreshHandler_verdict w :
  (RefreshHandler w).1 = Ret tt ->
  Rejected w (RefreshHandler w) ∨ admitted w (RefreshHandler w).2.
Proof.
  unfold RefreshHandler, bind. run_parse w w1 Hp; simpl; try done.
  2: { intros _. reject_with (@nil Event). }
  unfold assert_float64.
  destruct (index (Claims token) "orig_iat"); simpl; try done.
  destruct (_ <? _); simpl.
  { intros _. reject_with (@nil Event). }
  unfold refreshToken, bind, jwt_New.
  destruct (GetSigningMethod _); simpl; [|done].
  destruct (SignedString _ _) as [tokenString|]; simpl.
  2: { intros _. reject_with (@nil Event). }
  unfold assert_string.
  match goal with |- context [index ?c "id"] => destruct (index c "id") end;
    simpl; try done.
  destruct (StoreToken (mw w1)); destruct (RemoveToken (mw w1)); simpl;
    (destruct (RefreshCallback (mw w1)); simpl; [intros _|done]);
    right; eexists; simpl; rewrite Ft, <- ?app_assoc; simpl;
    (split; [reflexivity|]);
    repeat first [ apply Exists_cons_hd; reflexivity | apply Exists_cons_tl ].
Qed.

Lemma unauthorized_response_shape realm wr :
  headers (unauthorized_response realm wr) !! "WWW-Authenticate"
    = Some ("JWT realm=" ++ realm) ∧
  body (unauthorized_response realm wr)
    = (body wr ++ [ErrorBody "Not Authorized"])%list ∧
  (status wr = None ->
   status (unauthorized_response realm wr) = Some StatusUnauthorized) ∧
  (forall k, k ≠ "WWW-Authenticate" ->
             headers (unauthorized_response realm wr) !! k = headers wr !! k).
Proof.
  unfold unauthorized_response, rest_Error, WriteJson, WriteHeader, Header_Set.
  simpl. split_and!.
  - apply lookup_insert_eq.
  - done.
  - intros ->. done.
  - intros k Hk. by apply lookup_insert_ne.
Qed.

(** C7 (amended): every rejection, at whichever step of the gate, the login
    or the refresh it happens, leaves one and the same response, which
    depends on nothing but the configured realm: whenever one of the three
    operations returns without letting the request through, the writer holds
    status 401 (on a writer with no status yet), the body Not Authorized and
    the challenge header JWT realm= followed by the realm as configured,
    with no quotation marks added around it. *)
Theorem C7_uniform_rejection
    (handler : ResponseWriter -> Request -> ResponseWriter) (w : World) :
  ((middlewareImpl handler w).1 = Ret tt ->
   Rejected w (middlewareImpl handler w)
   ∨ admitted w (middlewareImpl handler w).2) ∧
  ((LoginHandler w).1 = Ret tt ->
   Rejected w (LoginHandler w) ∨ admitted w (LoginHandler w).2) ∧
  ((RefreshHandler w).1 = Ret tt ->
   Rejected w (RefreshHandler w) ∨ admitted w (RefreshHandler w).2) ∧
  (forall run, Rejected w run ->
     ¬ admitted w run.2 ∧
     headers (writer run.2) !! "WWW-Authenticate"
       = Some ("JWT realm=" ++ Realm (mw w)) ∧
     body (writer run.2)
       = (body (writer w) ++ [ErrorBody "Not Authorized"])%list ∧
     (status (writer w) = None ->
      status (writer run.2) = Some StatusUnauthorized)).
Proof.
  split_and!.
  - apply middlewareImpl_verdict.
  - apply LoginHandler_verdict.
  - apply RefreshHandler_verdict.
  - intros run HR. split.
    { intros Ha. by eapply admitted_not_Rejected. }
    destruct HR as (_ & -> & _).
    pose proof (unauthorized_response_shape (Realm (mw w)) (writer w))
      as (H1 & H2 & H3 & _).
    done.
Qed.

(** C10: a login request whose body does not decode is answered with the
    uniform unauthorized response, the very response of a credential
    failure, and the Authenticator is not called for it: the trace of calls
    into the application is left as it was. *)
Theorem C10_login_bad_payload (w : World) :
  DecodeJsonPayload (Body (request w)) = None ->
  (LoginHandler w).1 = Ret tt ∧
  writer (LoginHandler w).2
    = unauthorized_response (Realm (mw w)) (writer w) ∧
  trace (LoginHandler w).2 = trace w ∧
  (forall u p, EvAuthenticator u p ∈ trace (LoginHandler w).2 ->
               EvAuthenticator u p ∈ trace w) ∧
  (forall w2 loginVals authenticator,
     mw w2 = mw w -> writer w2 = writer w ->
     DecodeJsonPayload (Body (request w2)) = Some loginVals ->
     Authenticator (mw w) = Some authenticator ->
     authenticator (Username loginVals) (Password loginVals) = false ->
     (LoginHandler w2).1 = Ret tt ∧
     writer (LoginHandler w2).2 = writer (LoginHandler w).2).
Proof.
  intros Hdec. unfold LoginHandler, bind. simpl. rewrite Hdec. simpl.
  split_and!; try done.
  intros w2 lv a Hm Hw Hdec2 Ha Hno.
  rewrite Hdec2. simpl. rewrite Hm, Ha. simpl. rewrite Hno. simpl.
  rewrite Hm, Hw. done.
Qed.

(** ** C3: token verification *)

Lemma exp_in_future_integer (c : gmap string Value) (e now : Z) :
  c !! "exp" = Some (VFloat64 (inject_Z e)) -> in_int64 e = true ->
  (exp_in_future c now = true <-> now < e).
Proof.
  intros Hc He. unfold exp_in_future. rewrite Hc.
  rewrite int64_of_float64_inject by done. apply Z.ltb_lt.
Qed.

(** C3: for a presented token, that is a token string that the extractor
    found in the request and that decodes, [parseToken] under a registered
    configured algorithm returns an error exactly when the algorithm of the
    token differs from the configured one, or the signature does not verify
    under the configured key and algorithm, or [exp] is not strictly in the
    future of the clock reading at verification; a token that meets the
    three conditions is returned with its claims. *)
Theorem C3_parseToken_verdict (w : World) (extractor : Extractor)
    (tokenString alg signed sig : string) (claims : gmap string Value) :
  TokenExtractor (mw w) = Some extractor ->
  run_extractor extractor (mw w) (request w) = Ok tokenString ->
  decode_token tokenString = Some (alg, claims, signed, sig) ->
  registered (SigningAlgorithm (mw w)) = true ->
  ((∃ e, (parseToken w).1 = Ret (Err e)) <->
   (alg ≠ SigningAlgorithm (mw w)
    ∨ Verify (SigningAlgorithm (mw w)) signed sig (Key (mw w)) = false
    ∨ exp_in_future claims (Unix (clock w (ticks w))) = false)) ∧
  (alg = SigningAlgorithm (mw w) ->
   Verify (SigningAlgorithm (mw w)) signed sig (Key (mw w)) = true ->
   exp_in_future claims (Unix (clock w (ticks w))) = true ->
   (parseToken w).1
     = Ret (Ok {| Raw := tokenString; Method := alg; Claims := claims |})) ∧
  (forall e, claims !! "exp" = Some (VFloat64 (inject_Z e)) ->
             in_int64 e = true ->
             (exp_in_future claims (Unix (clock w (ticks w))) = false
              <-> e <= Unix (clock w (ticks w)))).
Proof.
  intros Hex Hrun Hdec Hreg.
  assert (Hrun' : (parseToken w).1 =
    if bool_decide (alg = SigningAlgorithm (mw w))
    then if exp_in_future claims (Unix (clock w (ticks w)))
            && Verify alg signed sig (Key (mw w))
         then Ret (Ok {| Raw := tokenString; Method := alg; Claims := claims |})
         else Ret (Err "token is invalid")
    else Ret (Err (if registered alg then "Invalid signing algorithm"
                   else "signing method (alg) is unavailable"))).
  { unfold parseToken, bind, get_mw, get_request, call. simpl.
    rewrite Hex. simpl. rewrite Hrun. unfold jwt_Parse. rewrite Hdec.
    unfold GetSigningMethod, keyFunc, GetSigningMethod. rewrite Hreg.
    case_bool_decide as Halg.
    - subst alg. rewrite Hreg. simpl.
      rewrite bool_decide_false by (intros H; by apply H).
      unfold bind, time_Now. simpl. by destruct (_ && _).
    - destruct (registered alg) eqn:Hr; [|done]. simpl.
      rewrite bool_decide_true; [done|]. intros [= H]. by apply Halg. }
  split_and!.
  - rewrite Hrun'. case_bool_decide as Halg.
    + subst alg.
      destruct (exp_in_future _ _) eqn:Hexp,
        (Verify _ signed sig _) eqn:Hver; simpl.
      all: split; [intros [e He]|intros Hor].
      all: try discriminate He.
      all: try (by eexists).
      all: try (destruct Hor as [?|[?|?]]; done).
      all: auto.
    + split; [auto|]. intros _. by eexists.
  - intros -> Hver Hexp. rewrite Hrun'.
    rewrite bool_decide_true by done. by rewrite Hexp, Hver.
  - intros e Hc He.
    pose proof (exp_in_future_integer claims e (Unix (clock w (ticks w))) Hc He)
      as Hiff.
    destruct (exp_in_future _ _); split; intros H.
    + done.
    + assert (Unix (clock w (ticks w)) < e) by (by apply Hiff). lia.
    + destruct (Z.lt_ge_cases (Unix (clock w (ticks w))) e) as [Hlt|Hge];
        [|done]. apply Hiff in Hlt. done.
    + done.
Qed.

(** ** What a successful [parseToken] tells *)

Lemma parseToken_Ok w token :
  (parseToken w).1 = Ret (Ok token) ->
  ∃ extractor signed sig,
    TokenExtractor (mw w) = Some extractor ∧
    run_extractor extractor (mw w) (request w) = Ok (Raw token) ∧
    decode_token (Raw token)
      = Some (Method token, Claims token, signed, sig) ∧
    Method token = SigningAlgorithm (mw w) ∧
    registered (SigningAlgorithm (mw w)) = true ∧
    Verify (SigningAlgorithm (mw w)) signed sig (Key (mw w)) = true ∧
    exp_in_future (Claims token) (Unix (clock w (ticks w))) = true ∧
    ticks (parseToken w).2 = S (ticks w).
Proof.
  intros H. destruct (parseToken w) as [o w1] eqn:E. simpl in H. subst o.
  revert E. unfold parseToken, bind, get_mw, get_request, call. simpl.
  destruct (TokenExtractor (mw w)) as [ex|]; [|by intros [=]]. simpl.
  destruct (run_extractor ex _ _) as [s|] eqn:Hrun; [|by intros [=]].
  unfold jwt_Parse.
  destruct (decode_token s) as [[[[alg c] signed] sig]|] eqn:Hdec;
    [|by intros [=]].
  unfold GetSigningMethod at 1.
  destruct (registered alg) eqn:Hreg; [|by intros [=]].
  unfold keyFunc, GetSigningMethod. simpl.
  case_bool_decide as Hk; [by intros [=]|].
  destruct (registered (SigningAlgorithm (mw w))) eqn:Hreg'; [|done].
  assert (alg = SigningAlgorithm (mw w)) as Halg by congruence.
  unfold bind, time_Now. simpl.
  destruct (exp_in_future _ _) eqn:Hexp; simpl; [|by intros [=]].
  destruct (Verify _ _ _ _) eqn:Hver; simpl; [|by intros [=]].
  intros [= <- <-]. simpl. exists ex, signed, sig.
  rewrite <- Halg. split_and!; done.
Qed.

Lemma refreshToken_run m token origIat w :
  registered (SigningAlgorithm m) = true ->
  (refreshToken m token origIat w).1
    = Ret {| Raw := EmptyString; Method := SigningAlgorithm m;
             Claims := refreshed_claims (Claims token) origIat
                         (Unix (Add (clock w (ticks w)) (Timeout m))) |} ∧
  same_but_ticks w (refreshToken m token origIat w).2 ∧
  ticks (refreshToken m token origIat w).2 = S (ticks w).
Proof.
  intros Hreg. unfold refreshToken, bind, jwt_New, GetSigningMethod.
  rewrite Hreg. simpl. unfold with_Claims, refreshed_claims. simpl.
  rewrite copy_entries_empty. done.
Qed.

Lemma supported_refreshed_claims old origIat exp :
  map_Forall (fun _ v => supported v = true) old ->
  map_Forall (fun _ v => supported v = true) (refreshed_claims old origIat exp).
Proof.
  intros H. unfold refreshed_claims.
  repeat apply map_Forall_insert_2; try done.
  unfold index. destruct (old !! "id") as [v|] eqn:E; simpl; [|done].
  by apply (H "id").
Qed.

Lemma SignedString_Ok (t : Token) key sig :
  map_Forall (fun _ v => supported v = true) (Claims t) ->
  Sign (Method t) (encode_segments (Method t) (json_value <$> Claims t)) key
    = Some sig ->
  SignedString t key
    = Ok (encode_segments (Method t) (json_value <$> Claims t) ++ "." ++ sig).
Proof.
  intros Hsup Hsig. unfold SignedString, SigningString, json_claims.
  rewrite bool_decide_true by done. by rewrite Hsig.
Qed.

Lemma index_refreshed_id old origIat exp :
  index (refreshed_claims old origIat exp) "id" = index old "id".
Proof.
  unfold refreshed_claims, index at 1.
  rewrite lookup_insert_ne by done. rewrite lookup_insert_ne by done.
  by rewrite lookup_insert_eq.
Qed.

(** The events of a refresh that hands out [tokenString]. *)
Lemma RefreshHandler_cases w token f :
  (parseToken w).1 = Ret (Ok token) ->
  index (Claims token) "orig_iat" = VFloat64 f ->
  let origIat := int64_of_float64 f in
  let now := clock w (S (ticks w)) in
  let now' := clock w (S (S (ticks w))) in
  let newToken :=
    {| Raw := EmptyString; Method := SigningAlgorithm (mw w);
       Claims := refreshed_claims (Claims token) origIat
                   (Unix (Add now' (Timeout (mw w)))) |} in
  if origIat <? Unix (Add now (neg_duration (MaxRefresh (mw w))))
  then Rejected w (RefreshHandler w)
  else
    match SignedString newToken (Key (mw w)) with
    | Err _ => Rejected w (RefreshHandler w)
    | Ok tokenString =>
        match index (Claims token) "id", RefreshCallback (mw w) with
        | VString userId, Some callback =>
            (RefreshHandler w).1 = Ret tt ∧
            trace (RefreshHandler w).2
              = (trace w
                 ++ (if StoreToken (mw w)
                     then [EvStoreToken (Timeout (mw w)) userId tokenString]
                     else [])
                 ++ (if RemoveToken (mw w)
                     then [EvRemoveToken userId (Raw token)] else [])
                 ++ [EvRefreshCallback tokenString])%list ∧
            writer (RefreshHandler w).2
              = callback tokenString (request w) (writer w)
        | _, _ =>
            (∃ msg, (RefreshHandler w).1 = Panic msg) ∧
            writer (RefreshHandler w).2 = writer w
        end
    end.
Proof.
  intros Hp Ho.
  destruct (parseToken_Ok w token Hp)
    as (ex & signed & sig & _ & _ & _ & _ & Hreg & _ & _ & Hticks).
  pose proof (parseToken_frame w) as (Fm & Fw & Fr & Fc & Ft).
  unfold RefreshHandler, bind.
  destruct (parseToken w) as [o w1]. simpl in Hp, Hticks, Fm, Fw, Fr, Fc, Ft.
  subst o. simpl. rewrite Ho. simpl. rewrite Fc, Hticks, Fm.
  destruct (_ <? _).
  { apply (unauthorized_Rejected _ _ []); simpl;
      [done|done|by rewrite app_nil_r|constructor]. }
  match goal with |- context [refreshToken ?m ?t ?o ?w0] =>
    pose proof (refreshToken_run m t o w0 Hreg) as (Hrt & Frt & Hrticks);
    destruct (refreshToken m t o w0) as [o2 w2] end.
  simpl in Hrt, Frt, Hrticks. destruct Frt as (Gm & Gw & Gr & Gc & Gt).
  simpl in Gm, Gw, Gr, Gc, Gt. subst o2. simpl. rewrite ?Fc, ?Hticks.
  destruct (SignedString _ _) as [tokenString|].
  2: { apply (unauthorized_Rejected _ _ []); simpl;
         [congruence|congruence|rewrite app_nil_r; congruence|constructor]. }
  rewrite index_refreshed_id. unfold assert_string.
  destruct (index (Claims token) "id") as [| |userId| | | |]; simpl;
    try (split; [by eexists|congruence]).
  rewrite ?Gm, ?Fm.
  destruct (StoreToken (mw w)), (RemoveToken (mw w)); simpl; rewrite ?Gm, ?Fm;
    (destruct (RefreshCallback (mw w)) as [cb|]; simpl;
     [ split_and!;
       [ done
       | rewrite Gt, Ft, <- ?app_assoc; done
       | rewrite Gw, Gr, Fw, Fr; done ]
     | split; [by eexists|simpl; congruence] ]).
Qed.

Lemma Rejected_not_Panic w run msg : run.1 = Panic msg -> ¬ Rejected w run.
Proof. intros H (H' & _). congruence. Qed.


(** ** C2 and C9: the gate and the claims it binds *)

(** The request as the gate hands it to the Authorizator and the handler. *)
Lemma middlewareImpl_cases h w token :
  (parseToken w).1 = Ret (Ok token) ->
  let run := middlewareImpl h w in
  match index (Claims token) "id" with
  | VString id =>
      match Authorizator (mw w) with
      | Some authorizator =>
          let bound :=
            set_Env (TokenEnvName (mw w)) (EnvString (Raw token))
              (set_Env "JWT_PAYLOAD" (EnvClaims (Some (Claims token)))
                 (set_Env "REMOTE_USER" (EnvString id) (request w))) in
          request run.2 = bound ∧
          if authorizator id bound
          then run.1 = Ret tt ∧
               trace run.2 = (trace w ++ [EvAuthorizator id; EvHandler])%list ∧
               writer run.2 = h (writer w) bound
          else Rejected w run
      | None => ∃ msg, run.1 = Panic msg
      end
  | _ =>
      run.1 = Panic "interface conversion: interface {} is not string" ∧
      writer run.2 = writer w ∧ trace run.2 = trace w ∧
      request run.2 = request w
  end.
Proof.
  intros Hp.
  pose proof (parseToken_frame w) as (Fm & Fw & Fr & Fc & Ft).
  unfold middlewareImpl, bind.
  destruct (parseToken w) as [o w1]. simpl in Hp, Fm, Fw, Fr, Fc, Ft.
  subst o. simpl. unfold assert_string.
  destruct (index (Claims token) "id") as [| |id| | | |]; simpl; try done.
  rewrite Fm. unfold call.
  destruct (Authorizator (mw w)) as [authz|]; simpl; [|by eexists].
  rewrite Fr. split; [by destruct (authz _ _)|].
  destruct (authz _ _); simpl.
  - rewrite Ft, Fw, <- app_assoc. done.
  - apply (unauthorized_Rejected _ _ [EvAuthorizator id]); simpl;
      [done|done|by rewrite Ft|repeat constructor].
Qed.

(** C2 (amended): when the token of a request parses and verifies at the
    gate but its claims have no [id] entry, or one that is not a string, the
    gate does not let the request through and binds nothing: the unchecked
    type assertion panics, the Authorizator and the wrapped handler are not
    called, the request environment is left as it was, and no response, in
    particular no unauthorized response, is written by the gate.  With a
    string [id] and an Authorizator the gate returns normally. *)
Theorem C2_gate_requires_string_id
    (handler : ResponseWriter -> Request -> ResponseWriter)
    (w : World) (token : Token) :
  (parseToken w).1 = Ret (Ok token) ->
  ((forall id, index (Claims token) "id" ≠ VString id) ->
   (middlewareImpl handler w).1
     = Panic "interface conversion: interface {} is not string" ∧
   writer (middlewareImpl handler w).2 = writer w ∧
   trace (middlewareImpl handler w).2 = trace w ∧
   request (middlewareImpl handler w).2 = request w ∧
   ¬ Rejected w (middlewareImpl handler w)) ∧
  (forall id authorizator,
     index (Claims token) "id" = VString id ->
     Authorizator (mw w) = Some authorizator ->
     (middlewareImpl handler w).1 = Ret tt).
Proof.
  intros Hp. pose proof (middlewareImpl_cases handler w token Hp) as Hc.
  cbv zeta in Hc. split.
  - intros Hid.
    destruct (index (Claims token) "id") as [| |id| | | |];
      try (by destruct (Hid id));
      destruct Hc as (H1 & H2 & H3 & H4); split_and!; try done;
      by eapply Rejected_not_Panic.
  - intros id authz Hid Ha. rewrite Hid, Ha in Hc. destruct Hc as [_ Hc].
    destruct (authz _ _); [by destruct Hc|by destruct Hc].
Qed.

(** C9 (amended): on a request whose environment has no JWT_PAYLOAD entry
    (or a nil one) [ExtractClaims] returns an empty claims map that is not
    nil, and it does not fail.  On a request that the gate let through it
    returns exactly the claims of the verified token, provided the
    configured TokenEnvName is not JWT_PAYLOAD itself. *)
Theorem C9_ExtractClaims :
  (forall r : Request,
     Env r !! "JWT_PAYLOAD" = None ∨ Env r !! "JWT_PAYLOAD" = Some EnvNil ->
     ExtractClaims r = Ret (Some ∅)) ∧
  (forall (handler : ResponseWriter -> Request -> ResponseWriter)
          (w : World) (token : Token),
     (parseToken w).1 = Ret (Ok token) ->
     (middlewareImpl handler w).1 = Ret tt ->
     admitted w (middlewareImpl handler w).2 ->
     TokenEnvName (mw w) ≠ "JWT_PAYLOAD" ->
     ExtractClaims (request (middlewareImpl handler w).2)
       = Ret (Some (Claims token))).
Proof.
  split.
  - intros r [H|H]; unfold ExtractClaims; by rewrite H.
  - intros handler w token Hp Hret Hadm Hname.
    pose proof (middlewareImpl_cases handler w token Hp) as Hc.
    cbv zeta in Hc.
    destruct (index (Claims token) "id") as [| |id| | | |];
      try (destruct Hc as [Hc _]; congruence).
    destruct (Authorizator (mw w)) as [authz|];
      [|destruct Hc as [msg Hc]; congruence].
    destruct Hc as [Hreq Hc]. rewrite Hreq.
    unfold ExtractClaims, set_Env. simpl.
    rewrite lookup_insert_ne by done. by rewrite lookup_insert_eq.
Qed.

(** ** C6: refresh needs a numeric [orig_iat] *)

(** C6 (amended): for a refresh request whose presented token parses and
    verifies, the handler reads [orig_iat] with an unchecked numeric type
    assertion before anything else.  A token without a numeric [orig_iat]
    never yields a new token: nothing is signed, stored or handed to the
    response callback; the handler panics on the assertion and writes no
    response, so the request is not rejected with the unauthorized
    response.  With a numeric [orig_iat] the handler goes on to the
    eligibility check. *)
Theorem C6_refresh_requires_orig_iat (w : World) (token : Token) :
  (parseToken w).1 = Ret (Ok token) ->
  ((forall f, index (Claims token) "orig_iat" ≠ VFloat64 f) ->
   (RefreshHandler w).1
     = Panic "interface conversion: interface {} is not float64" ∧
   writer (RefreshHandler w).2 = writer w ∧
   trace (RefreshHandler w).2 = trace w ∧
   ¬ Rejected w (RefreshHandler w)) ∧
  (forall f,
     index (Claims token) "orig_iat" = VFloat64 f ->
     int64_of_float64 f
       < Unix (Add (clock w (S (ticks w))) (neg_duration (MaxRefresh (mw w)))) ->
     Rejected w (RefreshHandler w)).
Proof.
  intros Hp. split.
  - intros Hno.
    pose proof (parseToken_frame w) as (Fm & Fw & Fr & Fc & Ft).
    assert (H : (RefreshHandler w).1
                  = Panic "interface conversion: interface {} is not float64"
                ∧ writer (RefreshHandler w).2 = writer w
                ∧ trace (RefreshHandler w).2 = trace w).
    { unfold RefreshHandler, bind.
      destruct (parseToken w) as [o w1]. simpl in Hp, Fm, Fw, Fr, Fc, Ft.
      subst o. simpl. unfold assert_float64.
      destruct (index (Claims token) "orig_iat") as [| | | |f| |]; simpl;
        try done.
      by destruct (Hno f). }
    destruct H as (H1 & H2 & H3). split_and!; try done.
    by eapply Rejected_not_Panic.
  - intros f Ho Hlt.
    pose proof (RefreshHandler_cases w token f Hp Ho) as Hc. cbv zeta in Hc.
    apply Z.ltb_lt in Hlt. by rewrite Hlt in Hc.
Qed.

(** ** C4: the claims of a login *)

Lemma loginToken_run m lv w :
  registered (SigningAlgorithm m) = true ->
  (loginToken m lv w).1
    = Ret {| Raw := EmptyString; Method := SigningAlgorithm m;
             Claims :=
               login_claims (provided_claims m (Username lv)) (Username lv)
                 (Unix (Add (clock w (ticks w)) (Timeout m)))
                 (if bool_decide (MaxRefresh m ≠ 0)
                  then Some (Unix (clock w (S (ticks w)))) else None) |}.
Proof.
  intros Hreg. unfold loginToken, bind, jwt_New, GetSigningMethod.
  rewrite Hreg. simpl. unfold login_claims, provided_claims, with_Claims.
  destruct (PayloadFunc m) as [payload|]; simpl;
    rewrite ?copy_entries_empty; destruct (bool_decide _); done.
Qed.

Lemma login_claims_lookup provided u exp o :
  login_claims provided u exp o !! "id" = Some (VString u) ∧
  login_claims provided u exp o !! "exp" = Some (VInt64 exp) ∧
  login_claims provided u exp o !! "orig_iat"
    = match o with
      | Some t => Some (VInt64 t)
      | None => provided !! "orig_iat"
      end ∧
  (forall k, k ≠ "id" -> k ≠ "exp" -> k ≠ "orig_iat" ->
             login_claims provided u exp o !! k = provided !! k).
Proof.
  unfold login_claims. destruct o as [t|]; split_and!;
    try intros k H1 H2 H3;
    repeat first [ rewrite lookup_insert_eq | rewrite lookup_insert_ne by done ];
    done.
Qed.

(** C4 (amended): for a login with username u that the Authenticator
    accepts, the claims that are signed are built by first taking every
    entry of the claims provider for u (when one is configured) and then
    setting the reserved keys, which overwrite a colliding provider entry:
    id = u, exp = Unix time of (now + Timeout), and orig_iat = Unix time of
    now when MaxRefresh is not 0.  When MaxRefresh is 0 the handler does not
    set orig_iat: the key is absent unless the provider supplied it, and a
    provider entry of that name is kept. The two clock readings are the
    first and the second of the request. *)
Theorem C4_login_claims (w : World) (loginVals : login)
    (authenticator : string -> string -> bool) :
  DecodeJsonPayload (Body (request w)) = Some loginVals ->
  Authenticator (mw w) = Some authenticator ->
  authenticator (Username loginVals) (Password loginVals) = true ->
  registered (SigningAlgorithm (mw w)) = true ->
  let u := Username loginVals in
  let provided := provided_claims (mw w) u in
  let exp := Unix (Add (clock w (ticks w)) (Timeout (mw w))) in
  let now' := Unix (clock w (S (ticks w))) in
  ∃ claims : gmap string Value,
    (match
       SignedString {| Raw := EmptyString; Method := SigningAlgorithm (mw w);
                       Claims := claims |} (Key (mw w))
     with
     | Err _ => Rejected w (LoginHandler w)
     | Ok tokenString =>
         match LoginCallback (mw w) with
         | Some callback =>
             (LoginHandler w).1 = Ret tt ∧
             last (trace (LoginHandler w).2)
               = Some (EvLoginCallback tokenString) ∧
             writer (LoginHandler w).2
               = callback tokenString (request w) (writer w)
         | None => ∃ msg, (LoginHandler w).1 = Panic msg
         end
     end) ∧
    claims !! "id" = Some (VString u) ∧
    claims !! "exp" = Some (VInt64 exp) ∧
    (MaxRefresh (mw w) ≠ 0 -> claims !! "orig_iat" = Some (VInt64 now')) ∧
    (MaxRefresh (mw w) = 0 -> claims !! "orig_iat" = provided !! "orig_iat") ∧
    (forall k, k ≠ "id" -> k ≠ "exp" -> k ≠ "orig_iat" ->
               claims !! k = provided !! k).
Proof.
  intros Hdec Ha Hyes Hreg u provided exp now'.
  exists (login_claims provided u exp
            (if bool_decide (MaxRefresh (mw w) ≠ 0)
             then Some now' else None)).
  split.
  - subst u provided exp now'.
    unfold LoginHandler, bind. simpl. rewrite Hdec. simpl.
    rewrite Ha. simpl. rewrite Hyes. simpl.
    match goal with |- context [loginToken ?m ?l ?w0] =>
      pose proof (loginToken_run m l w0 Hreg) as Hrun;
      pose proof (loginToken_frame m l w0)
        as (Fm & Fw & Fr & Fc & evs & Ft & Fe);
      destruct (loginToken m l w0) as [o w1] end.
    simpl in Hrun, Fm, Fw, Fr, Fc, Ft. subst o. simpl.
    destruct (SignedString _ _) as [tokenString|].
    + destruct (StoreToken (mw w)); simpl;
        (destruct (LoginCallback (mw w)) as [cb|]; simpl;
         [ split_and!; [reflexivity|apply last_snoc|by rewrite Fw]
         | by eexists ]).
    + apply (unauthorized_Rejected _ _
               (EvAuthenticator (Username loginVals) (Password loginVals)
                  :: evs)); simpl; [done|done| |by constructor].
      rewrite Ft, <- app_assoc. done.
  - pose proof (login_claims_lookup provided u exp
                  (if bool_decide (MaxRefresh (mw w) ≠ 0)
                   then Some now' else None)) as (H1 & H2 & H3 & H4).
    split_and!; try done.
    + intros Hne. rewrite H3. by rewrite bool_decide_true.
    + intros Heq. rewrite H3. rewrite bool_decide_false; [done|].
      intros Hne. by apply Hne.
Qed.

(** ** C5: the round trip of a refresh *)

Lemma parseToken_accepts w extractor tokenString alg claims signed sig :
  TokenExtractor (mw w) = Some extractor ->
  run_extractor extractor (mw w) (request w) = Ok tokenString ->
  decode_token tokenString = Some (alg, claims, signed, sig) ->
  registered (SigningAlgorithm (mw w)) = true ->
  alg = SigningAlgorithm (mw w) ->
  Verify (SigningAlgorithm (mw w)) signed sig (Key (mw w)) = true ->
  exp_in_future claims (Unix (clock w (ticks w))) = true ->
  (parseToken w).1
    = Ret (Ok {| Raw := tokenString; Method := alg; Claims := claims |}).
Proof.
  intros Hex Hrun Hdec Hreg -> Hver Hexp.
  unfold parseToken, bind, get_mw, get_request, call. simpl.
  rewrite Hex. simpl. rewrite Hrun. unfold jwt_Parse. rewrite Hdec.
  unfold GetSigningMethod, keyFunc, GetSigningMethod. rewrite Hreg. simpl.
  rewrite bool_decide_false by (intros H; by apply H).
  unfold bind, time_Now. simpl. by rewrite Hexp, Hver.
Qed.

Lemma json_value_is_json v : is_json v = true -> json_value v = v.
Proof. by destruct v. Qed.

Lemma is_json_supported v : is_json v = true -> supported v = true.
Proof. by destruct v. Qed.

Lemma lookup_wire_refreshed (old : gmap string Value) origIat exp k :
  map_Forall (fun _ v => is_json v = true) old ->
  k ≠ "id" -> k ≠ "exp" -> k ≠ "orig_iat" ->
  (json_value <$> refreshed_claims old origIat exp) !! k = old !! k.
Proof.
  intros Hj H1 H2 H3. rewrite lookup_fmap. unfold refreshed_claims.
  rewrite !lookup_insert_ne by done.
  destruct (old !! k) as [v|] eqn:E; simpl; [|done].
  f_equal. apply json_value_is_json. by apply (Hj k).
Qed.

(** C5: refreshing a valid token within the refresh window hands out a
    token whose claims, as they come back from the wire, carry the [id] and
    the [orig_iat] of the presented token unchanged ([orig_iat] is not reset
    to the time of the refresh), every other entry but [exp] verbatim, and
    [exp] = Unix time of (now + Timeout), now being the clock reading taken
    for it.  The new token verifies: any later request that presents it
    while [exp] is still in the future passes [parseToken] under the same
    configuration.  The presented token holds decoded JSON values, an
    integer [orig_iat] and a string [id]; the libraries decode what they
    encoded and verify what they signed. *)
Theorem C5_refresh_round_trip (w : World) (token : Token) (t0 : Z)
    (userId sig : string)
    (callback : string -> Request -> ResponseWriter -> ResponseWriter) :
  let alg := SigningAlgorithm (mw w) in
  let now := clock w (S (ticks w)) in
  let now' := clock w (S (S (ticks w))) in
  let exp := Unix (Add now' (Timeout (mw w))) in
  let wire := json_value <$> refreshed_claims (Claims token) t0 exp in
  let signed := encode_segments alg wire in
  let tokenString := signed ++ "." ++ sig in
  (parseToken w).1 = Ret (Ok token) ->
  map_Forall (fun _ v => is_json v = true) (Claims token) ->
  index (Claims token) "orig_iat" = VFloat64 (inject_Z t0) ->
  in_int64 t0 = true -> exact_float64 t0 ->
  ¬ t0 < Unix (Add now (neg_duration (MaxRefresh (mw w)))) ->
  index (Claims token) "id" = VString userId ->
  RefreshCallback (mw w) = Some callback ->
  Sign alg signed (Key (mw w)) = Some sig ->
  (forall s g, Sign alg s (Key (mw w)) = Some g ->
               Verify alg s g (Key (mw w)) = true) ->
  decode_token tokenString = Some (alg, wire, signed, sig) ->
  in_int64 exp = true -> exact_float64 exp ->
  ((RefreshHandler w).1 = Ret tt ∧
   last (trace (RefreshHandler w).2) = Some (EvRefreshCallback tokenString) ∧
   writer (RefreshHandler w).2 = callback tokenString (request w) (writer w)) ∧
  (wire !! "id" = Claims token !! "id" ∧
   wire !! "orig_iat" = Claims token !! "orig_iat" ∧
   wire !! "exp" = Some (VFloat64 (inject_Z exp)) ∧
   (forall k, k ≠ "exp" -> wire !! k = Claims token !! k)) ∧
  (forall w2 extractor,
     mw w2 = mw w ->
     TokenExtractor (mw w2) = Some extractor ->
     run_extractor extractor (mw w2) (request w2) = Ok tokenString ->
     Unix (clock w2 (ticks w2)) < exp ->
     (parseToken w2).1
       = Ret (Ok {| Raw := tokenString; Method := alg; Claims := wire |})).
Proof.
  intros alg now now' exp wire signed tokenString
    Hp Hjson Ho Hr Hex Hwin Hid Hcb Hsig Hscheme Hdec Hexpr Hexpx.
  assert (Hsup : map_Forall (fun _ v => supported v = true) (Claims token)).
  { intros k v Hk. apply is_json_supported. by apply (Hjson k). }
  assert (Hwid : wire !! "id" = Claims token !! "id").
  { unfold wire, refreshed_claims. rewrite lookup_fmap.
    rewrite !lookup_insert_ne by done. rewrite lookup_insert_eq.
    revert Hid. unfold index.
    destruct (Claims token !! "id") as [v|]; simpl; [|done].
    by intros ->. }
  assert (Hwo : wire !! "orig_iat" = Claims token !! "orig_iat").
  { unfold wire, refreshed_claims. rewrite lookup_fmap.
    rewrite lookup_insert_eq. simpl. rewrite Hex.
    revert Ho. unfold index.
    destruct (Claims token !! "orig_iat") as [v|]; simpl; [|done].
    by intros ->. }
  assert (Hwe : wire !! "exp" = Some (VFloat64 (inject_Z exp))).
  { unfold wire, refreshed_claims. rewrite lookup_fmap.
    rewrite lookup_insert_ne by done. rewrite lookup_insert_eq. simpl.
    by rewrite Hexpx. }
  split; [|split].
  - pose proof (RefreshHandler_cases w token (inject_Z t0) Hp Ho) as Hc.
    cbv zeta in Hc. rewrite int64_of_float64_inject in Hc by done.
    fold now now' exp in Hc.
    assert (Hge : (t0 <? Unix (Add now (neg_duration (MaxRefresh (mw w)))))
                  = false) by (apply Z.ltb_ge; lia).
    rewrite Hge in Hc.
    rewrite (SignedString_Ok _ (Key (mw w)) sig) in Hc;
      [|by apply supported_refreshed_claims|exact Hsig].
    cbn [Method Claims] in Hc. rewrite Hid, Hcb in Hc.
    destruct Hc as (H1 & H2 & H3).
    split; [exact H1|]. split; [|exact H3].
    rewrite H2, !app_assoc. apply last_snoc.
  - split; [exact Hwid|]. split; [exact Hwo|]. split; [exact Hwe|].
    intros k Hk.
    destruct (decide (k = "id")) as [->|H1]; [done|].
    destruct (decide (k = "orig_iat")) as [->|H2]; [done|].
    by apply lookup_wire_refreshed.
  - intros w2 ex Hm Hex2 Hrun Hlt.
    destruct (parseToken_Ok w token Hp)
      as (_ & _ & _ & _ & _ & _ & _ & Hreg & _).
    apply (parseToken_accepts w2 ex tokenString alg wire signed sig).
    + exact Hex2.
    + exact Hrun.
    + exact Hdec.
    + by rewrite Hm.
    + by rewrite Hm.
    + rewrite Hm. by apply Hscheme.
    + unfold exp_in_future. rewrite Hwe.
      rewrite int64_of_float64_inject by done. by apply Z.ltb_lt.
Qed.

(** * Further properties of the package *)

(** ** The default token extractor *)

Lemma SplitN2_no_space s : has_space s = false -> SplitN2 s = [s].
Proof.
  induction s as [|c rest IH]; [done|]. simpl.
  destruct (Ascii.eqb c " "); simpl; [done|]. intros H. by rewrite IH.
Qed.

Lemma SplitN2_inv s :
  (has_space s = false ∧ SplitN2 s = [s]) ∨
  (∃ p rest, s = p ++ String " " rest ∧ has_space p = false ∧
             SplitN2 s = [p; rest]).
Proof.
  induction s as [|c rest IH]; [by left|]. simpl.
  destruct (Ascii.eqb c " ") eqn:E; simpl.
  - right. exists EmptyString, rest. apply Ascii.eqb_eq in E. by subst c.
  - destruct IH as [[Hn ->]|(p & r & -> & Hp & ->)].
    + by left.
    + right. exists (String c p), r. simpl. by rewrite E, Hp.
Qed.

Lemma has_space_app_space p rest : has_space (p ++ String " " rest) = true.
Proof.
  induction p as [|c p IH]; simpl; [done|]. rewrite IH. apply orb_true_r.
Qed.

Lemma defaultTokenExtractor_cases (m : JWTMiddleware) (r : Request) :
  (forall t, defaultTokenExtractor m r = Ok t
             <-> Header r (TokenName m) = "Bearer " ++ t) ∧
  (Header r (TokenName m) = EmptyString ->
   defaultTokenExtractor m r = Err "Auth header empty") ∧
  (Header r (TokenName m) ≠ EmptyString ->
   (forall t, Header r (TokenName m) ≠ "Bearer " ++ t) ->
   defaultTokenExtractor m r = Err "Invalid auth header").
Proof.
  unfold defaultTokenExtractor.
  assert (Hfwd : forall t, Header r (TokenName m) = "Bearer " ++ t ->
            (if bool_decide (Header r (TokenName m) = EmptyString)
             then Err "Auth header empty"
             else match SplitN2 (Header r (TokenName m)) with
                  | [p0; p1] => if bool_decide (p0 = "Bearer") then Ok p1
                                else Err "Invalid auth header"
                  | _ => Err "Invalid auth header"
                  end) = Ok t).
  { intros t ->. reflexivity. }
  split_and!.
  - intros t. split; [|apply Hfwd]. clear Hfwd.
    case_bool_decide as He; [done|].
    destruct (SplitN2_inv (Header r (TokenName m)))
      as [[_ ->]|(p & rest & Hs & _ & ->)]; [done|].
    case_bool_decide as Hp; [|done]. intros [= <-]. by rewrite Hs, Hp.
  - intros ->. reflexivity.
  - clear Hfwd. intros Hne Hno. rewrite bool_decide_false by done.
    destruct (SplitN2_inv (Header r (TokenName m)))
      as [[_ ->]|(p & rest & Hs & _ & ->)]; [done|].
    case_bool_decide as Hp; [|reflexivity]. exfalso. apply (Hno rest).
    by rewrite Hs, Hp.
Qed.

(** X1: the default extractor returns the token t exactly when the header
    named by TokenName is the word Bearer, one space and t; t is whatever
    follows that first space, be it empty or with further spaces in it.  An
    empty (or absent) header and a header of any other form are the two
    errors. *)
Theorem X1_defaultTokenExtractor (m : JWTMiddleware) (r : Request) :
  (forall t, defaultTokenExtractor m r = Ok t
             <-> Header r (TokenName m) = "Bearer " ++ t) ∧
  (Header r (TokenName m) = EmptyString ->
   defaultTokenExtractor m r = Err "Auth header empty") ∧
  (Header r (TokenName m) ≠ EmptyString ->
   (forall t, Header r (TokenName m) ≠ "Bearer " ++ t) ->
   defaultTokenExtractor m r = Err "Invalid auth header").
Proof. apply defaultTokenExtractor_cases. Qed.

(** ** Requests that do not verify *)

Lemma parseToken_Ret w extractor :
  TokenExtractor (mw w) = Some extractor ->
  ∃ r, (parseToken w).1 = Ret r.
Proof.
  intros Hex. unfold parseToken, bind, get_mw, get_request, call. simpl.
  rewrite Hex. simpl.
  destruct (run_extractor _ _ _); [|by eexists].
  unfold jwt_Parse.
  destruct (decode_token _) as [[[[alg c] signed] sig]|]; [|by eexists].
  destruct (GetSigningMethod alg); [|by eexists].
  destruct (keyFunc _ _); [|by eexists].
  unfold bind, time_Now. simpl. destruct (_ && _); by eexists.
Qed.

Lemma parseToken_extractor_error w extractor e :
  TokenExtractor (mw w) = Some extractor ->
  run_extractor extractor (mw w) (request w) = Err e ->
  parseToken w = (Ret (Err e), w).
Proof.
  intros Hex Hrun. unfold parseToken, bind, get_mw, get_request, call. simpl.
  rewrite Hex. simpl. by rewrite Hrun.
Qed.

Lemma parse_error_rejects
    (handler : ResponseWriter -> Request -> ResponseWriter)
    (w : World) (e : string) :
  (parseToken w).1 = Ret (Err e) ->
  (Rejected w (middlewareImpl handler w) ∧
   trace (middlewareImpl handler w).2 = trace w ∧
   request (middlewareImpl handler w).2 = request w) ∧
  (Rejected w (RefreshHandler w) ∧
   trace (RefreshHandler w).2 = trace w ∧
   request (RefreshHandler w).2 = request w).
Proof.
  intros Hp.
  pose proof (parseToken_frame w) as (Fm & Fw & Fr & Fc & Ft).
  unfold middlewareImpl, RefreshHandler, bind.
  destruct (parseToken w) as [o w1]. simpl in Hp, Fm, Fw, Fr, Fc, Ft.
  subst o. simpl. rewrite Ft, Fr.
  split; (split; [|done]);
    apply (unauthorized_Rejected _ _ []); simpl;
    rewrite ?app_nil_r; try done; constructor.
Qed.

(** X2: when [parseToken] returns an error, whatever its reason, the gate
    and the refresh handler answer with the uniform unauthorized response
    and do nothing else: the request environment is not written, and
    neither the Authorizator, the wrapped handler, the store hooks nor the
    response callback is called. *)
Theorem X2_parse_error_rejects
    (handler : ResponseWriter -> Request -> ResponseWriter)
    (w : World) (e : string) :
  (parseToken w).1 = Ret (Err e) ->
  (Rejected w (middlewareImpl handler w) ∧
   trace (middlewareImpl handler w).2 = trace w ∧
   request (middlewareImpl handler w).2 = request w) ∧
  (Rejected w (RefreshHandler w) ∧
   trace (RefreshHandler w).2 = trace w ∧
   request (RefreshHandler w).2 = request w).
Proof. apply parse_error_rejects. Qed.

(** X3: with the default extractor, a request whose header (named by
    TokenName) is missing, empty, of another scheme or the bare word Bearer
    is rejected by the gate and by the refresh handler before the token
    library is consulted: the clock is not read and the application is not
    called. *)
Theorem X3_malformed_header_rejected
    (handler : ResponseWriter -> Request -> ResponseWriter) (w : World) :
  TokenExtractor (mw w) = Some DefaultExtractor ->
  (forall t, Header (request w) (TokenName (mw w)) ≠ "Bearer " ++ t) ->
  Rejected w (middlewareImpl handler w) ∧
  ticks (middlewareImpl handler w).2 = ticks w ∧
  trace (middlewareImpl handler w).2 = trace w ∧
  Rejected w (RefreshHandler w) ∧
  ticks (RefreshHandler w).2 = ticks w ∧
  trace (RefreshHandler w).2 = trace w.
Proof.
  intros Hex Hno.
  assert (∃ e, parseToken w = (Ret (Err e), w)) as [e Hp].
  { destruct (defaultTokenExtractor_cases (mw w) (request w)) as (_ & He & Hi).
    destruct (decide (Header (request w) (TokenName (mw w)) = EmptyString))
      as [Hz|Hnz].
    - eexists. eapply parseToken_extractor_error; [exact Hex|].
      apply He, Hz.
    - eexists. eapply parseToken_extractor_error; [exact Hex|].
      by apply Hi. }
  unfold middlewareImpl, RefreshHandler, bind. rewrite Hp. simpl.
  split_and!; try done;
    apply (unauthorized_Rejected _ _ []); simpl;
    rewrite ?app_nil_r; try done; constructor.
Qed.

(** ** Construction *)

Lemma when_fatal_hit cond msg w :
  cond (mw w) = true -> when cond (log_Fatal msg) w = (Fatal msg, w).
Proof. intros H. unfold when, bind, get_mw. simpl. by rewrite H. Qed.

Lemma default_step_fatal_fields cond update m :
  (forall m0, same_required m0 (update m0)) ->
  Realm (default_step cond update m) = Realm m ∧
  Key (default_step cond update m) = Key m ∧
  Authenticator (default_step cond update m) = Authenticator m.
Proof.
  intros H. destruct (default_step_required cond update m H)
    as (H1 & H2 & _ & H4 & _). done.
Qed.

Lemma default_step_Realm cond update m :
  (forall m0, same_required m0 (update m0)) ->
  Realm (default_step cond update m) = Realm m.
Proof. intros H. by destruct (default_step_fatal_fields cond update m H). Qed.

Lemma default_step_Key cond update m :
  (forall m0, same_required m0 (update m0)) ->
  Key (default_step cond update m) = Key m.
Proof.
  intros H. by destruct (default_step_fatal_fields cond update m H) as (_&?&_).
Qed.

Lemma default_step_Authenticator cond update m :
  (forall m0, same_required m0 (update m0)) ->
  Authenticator (default_step cond update m) = Authenticator m.
Proof.
  intros H. by destruct (default_step_fatal_fields cond update m H) as (_&_&?).
Qed.

Ltac required_fields :=
  rewrite ?default_step_Realm, ?default_step_Key, ?default_step_Authenticator
    by (intros ?; by repeat split).

Lemma MiddlewareFunc_world h w :
  writer (MiddlewareFunc h w).2 = writer w ∧
  request (MiddlewareFunc h w).2 = request w ∧
  clock (MiddlewareFunc h w).2 = clock w ∧
  ticks (MiddlewareFunc h w).2 = ticks w ∧
  trace (MiddlewareFunc h w).2 = trace w.
Proof.
  destruct (MiddlewareFunc h w) as [o w'] eqn:E. revert E.
  unfold MiddlewareFunc.
  unfold bind at 1. rewrite when_set_run.
  unfold bind at 1. rewrite when_set_run.
  unfold bind at 1. unfold when at 1, bind at 1, get_mw at 1, log_Fatal.
  proj_simpl. destruct (bool_decide (Realm _ = _)); [intros [= <- <-]; proj_simpl; by repeat split|].
  unfold ret at 1.
  unfold bind at 1. rewrite when_set_run.
  unfold bind at 1. unfold when at 1, bind at 1, get_mw at 1, log_Fatal.
  proj_simpl. destruct (is_nil (Key _)); [intros [= <- <-]; proj_simpl; by repeat split|].
  unfold ret at 1.
  unfold bind at 1. rewrite when_set_run.
  unfold bind at 1. unfold when at 1, bind at 1, get_mw at 1, log_Fatal.
  proj_simpl. destruct (is_nil (Authenticator _)); [intros [= <- <-]; proj_simpl; by repeat split|].
  unfold ret at 1.
  unfold bind at 1. rewrite when_set_run.
  unfold bind at 1. rewrite when_set_run.
  unfold bind at 1. rewrite when_set_run.
  unfold bind at 1. rewrite when_set_run.
  unfold ret. intros [= <- <-]. proj_simpl. by repeat split.
Qed.

Lemma MiddlewareFunc_outcome h w :
  (MiddlewareFunc h w).1 =
    if bool_decide (Realm (mw w) = EmptyString)
    then Fatal "Realm is required"
    else if is_nil (Key (mw w)) then Fatal "Key required"
    else if is_nil (Authenticator (mw w))
    then Fatal "Authenticator is required"
    else Ret (middlewareImpl h).
Proof.
  destruct (MiddlewareFunc h w) as [o w'] eqn:E. revert E.
  unfold MiddlewareFunc.
  unfold bind at 1. rewrite when_set_run.
  unfold bind at 1. rewrite when_set_run.
  unfold bind at 1. unfold when at 1, bind at 1, get_mw at 1, log_Fatal.
  proj_simpl. required_fields.
  destruct (bool_decide (Realm _ = _)); [intros [= <- <-]; proj_simpl; by repeat split|].
  unfold ret at 1.
  unfold bind at 1. rewrite when_set_run.
  unfold bind at 1. unfold when at 1, bind at 1, get_mw at 1, log_Fatal.
  proj_simpl. required_fields.
  destruct (is_nil (Key _)); [intros [= <- <-]; proj_simpl; by repeat split|].
  unfold ret at 1.
  unfold bind at 1. rewrite when_set_run.
  unfold bind at 1. unfold when at 1, bind at 1, get_mw at 1, log_Fatal.
  proj_simpl. required_fields.
  destruct (is_nil (Authenticator _)); [intros [= <- <-]; proj_simpl; by repeat split|].
  unfold ret at 1.
  unfold bind at 1. rewrite when_set_run.
  unfold bind at 1. rewrite when_set_run.
  unfold bind at 1. rewrite when_set_run.
  unfold bind at 1. rewrite when_set_run.
  unfold ret. intros [= <- <-]. proj_simpl. by repeat split.
Qed.

(** X4: [MiddlewareFunc] ends the process exactly when the realm is empty,
    the key is nil or the Authenticator is nil, with the message of the
    first check that fails in that order; a key that is empty but not nil
    passes.  Otherwise it returns the gate.  In every case it leaves the
    response writer, the request and the application untouched. *)
Theorem X4_MiddlewareFunc_fatal
    (handler : ResponseWriter -> Request -> ResponseWriter) (w : World) :
  (Realm (mw w) = EmptyString ->
   (MiddlewareFunc handler w).1 = Fatal "Realm is required") ∧
  (Realm (mw w) ≠ EmptyString -> Key (mw w) = None ->
   (MiddlewareFunc handler w).1 = Fatal "Key required") ∧
  (Realm (mw w) ≠ EmptyString -> Key (mw w) ≠ None ->
   Authenticator (mw w) = None ->
   (MiddlewareFunc handler w).1 = Fatal "Authenticator is required") ∧
  (Realm (mw w) ≠ EmptyString -> Key (mw w) ≠ None ->
   Authenticator (mw w) ≠ None ->
   (MiddlewareFunc handler w).1 = Ret (middlewareImpl handler)) ∧
  (writer (MiddlewareFunc handler w).2 = writer w ∧
   request (MiddlewareFunc handler w).2 = request w ∧
   ticks (MiddlewareFunc handler w).2 = ticks w ∧
   trace (MiddlewareFunc handler w).2 = trace w).
Proof.
  pose proof (MiddlewareFunc_outcome handler w) as Ho.
  pose proof (MiddlewareFunc_world handler w) as (Hw & Hr & _ & Ht & Htr).
  split_and!; try done.
  - intros Hz. rewrite Ho. by rewrite bool_decide_true.
  - intros Hz Hk. rewrite Ho, bool_decide_false by done. by rewrite Hk.
  - intros Hz Hk Ha. rewrite Ho, bool_decide_false by done.
    destruct (Key (mw w)); [|done]. by rewrite Ha.
  - intros Hz Hk Ha. rewrite Ho, bool_decide_false by done.
    destruct (Key (mw w)); [|done]. by destruct (Authenticator (mw w)).
Qed.

Lemma with_defaults_callbacks m :
  is_nil (TokenExtractor (with_defaults m)) = false ∧
  is_nil (Authorizator (with_defaults m)) = false ∧
  is_nil (LoginCallback (with_defaults m)) = false ∧
  is_nil (RefreshCallback (with_defaults m)) = false.
Proof.
  unfold with_defaults. proj_simpl.
  destruct (TokenExtractor m), (Authorizator m), (LoginCallback m),
    (RefreshCallback m); done.
Qed.

Lemma middlewareImpl_outcomes h w :
  is_nil (TokenExtractor (mw w)) = false ->
  is_nil (Authorizator (mw w)) = false ->
  (middlewareImpl h w).1 = Ret tt ∨
  (middlewareImpl h w).1
    = Panic "interface conversion: interface {} is not string".
Proof.
  intros Hex Haz.
  destruct (TokenExtractor (mw w)) as [ex|] eqn:Eex; [|done].
  destruct (parseToken_Ret w ex Eex) as [[token|e] Hp].
  - pose proof (middlewareImpl_cases h w token Hp) as Hc. cbv zeta in Hc.
    destruct (index (Claims token) "id");
      try (right; by destruct Hc).
    destruct (Authorizator (mw w)) as [authz|]; [|done].
    destruct Hc as [_ Hc]. left.
    destruct (authz _ _); by destruct Hc.
  - left. unfold middlewareImpl, bind.
    destruct (parseToken w) as [o w1]. simpl in Hp. by subst o.
Qed.

Lemma RefreshHandler_outcomes w :
  is_nil (TokenExtractor (mw w)) = false ->
  is_nil (RefreshCallback (mw w)) = false ->
  (RefreshHandler w).1 = Ret tt ∨
  (RefreshHandler w).1
    = Panic "interface conversion: interface {} is not float64" ∨
  (RefreshHandler w).1
    = Panic "interface conversion: interface {} is not string".
Proof.
  intros Hex Hcb.
  destruct (TokenExtractor (mw w)) as [ex|] eqn:Eex; [|done].
  destruct (parseToken_Ret w ex Eex) as [[token|e] Hp].
  2: { left. unfold RefreshHandler, bind.
       destruct (parseToken w) as [o w1]. simpl in Hp. by subst o. }
  destruct (parseToken_Ok w token Hp)
    as (_ & _ & _ & _ & _ & _ & _ & Hreg & _ & _ & Hticks).
  pose proof (parseToken_frame w) as (Fm & Fw & Fr & Fc & Ft).
  unfold RefreshHandler, bind.
  destruct (parseToken w) as [o w1]. simpl in Hp, Hticks, Fm, Fw, Fr, Fc, Ft.
  subst o. simpl. unfold assert_float64.
  destruct (index (Claims token) "orig_iat"); simpl; auto.
  destruct (_ <? _); simpl; [by left|].
  rewrite Fm.
  match goal with |- context [refreshToken ?m ?t ?o ?w0] =>
    pose proof (refreshToken_run m t o w0 Hreg) as (Hrt & Frt & _);
    destruct (refreshToken m t o w0) as [o2 w2] end.
  simpl in Hrt, Frt. destruct Frt as (Gm & _). simpl in Gm.
  subst o2. simpl.
  destruct (SignedString _ _) as [tokenString|]; [|by left].
  cbn [Claims]. rewrite index_refreshed_id. unfold assert_string.
  destruct (index (Claims token) "id"); simpl; auto.
  rewrite ?Gm, ?Fm.
  destruct (StoreToken (mw w)), (RemoveToken (mw w)); simpl;
    rewrite ?Gm, ?Fm; (destruct (RefreshCallback (mw w)); [|done]);
    simpl; by left.
Qed.

(** X5: once [MiddlewareFunc] has returned the gate, no handler of a
    protected route fails on a missing callback: on every later request
    the gate either returns normally or panics on the [id] type assertion,
    and the refresh handler either returns normally or panics on one of
    its two type assertions. *)
Theorem X5_outcomes_after_MiddlewareFunc
    (handler : ResponseWriter -> Request -> ResponseWriter)
    (w w2 : World) :
  (MiddlewareFunc handler w).1 = Ret (middlewareImpl handler) ->
  mw w2 = mw (MiddlewareFunc handler w).2 ->
  ((middlewareImpl handler w2).1 = Ret tt ∨
   (middlewareImpl handler w2).1
     = Panic "interface conversion: interface {} is not string") ∧
  ((RefreshHandler w2).1 = Ret tt ∨
   (RefreshHandler w2).1
     = Panic "interface conversion: interface {} is not float64" ∨
   (RefreshHandler w2).1
     = Panic "interface conversion: interface {} is not string").
Proof.
  intros Hret Hm.
  assert (Hwc : well_configured (mw w) = true).
  { rewrite MiddlewareFunc_outcome in Hret. unfold well_configured.
    destruct (bool_decide (Realm (mw w) = EmptyString)); [done|].
    destruct (is_nil (Key (mw w))); [done|].
    by destruct (is_nil (Authenticator (mw w))). }
  destruct (MiddlewareFunc_defaults handler w Hwc) as [_ Hd].
  rewrite Hd in Hm.
  destruct (with_defaults_callbacks (mw w)) as (H1 & H2 & H3 & H4).
  rewrite <- Hm in H1, H2, H3, H4.
  split.
  - by apply middlewareImpl_outcomes.
  - by apply RefreshHandler_outcomes.
Qed.

(** ** What the gate binds *)

(** X6: for a verified token with a string [id], the gate writes three
    entries into the request environment before it asks the Authorizator:
    the raw token under TokenEnvName, the claims under JWT_PAYLOAD and the
    id under REMOTE_USER, the raw token winning when TokenEnvName collides
    with one of the other two; every other entry, the headers and the body
    are left alone.  The Authorizator decides on the request with these
    entries in place: if it accepts, the wrapped handler runs once on that
    request, otherwise the request is rejected and the handler does not
    run. *)
Theorem X6_gate_binds_environment
    (handler : ResponseWriter -> Request -> ResponseWriter)
    (w : World) (token : Token) (id : string)
    (authorizator : string -> Request -> bool) :
  (parseToken w).1 = Ret (Ok token) ->
  index (Claims token) "id" = VString id ->
  Authorizator (mw w) = Some authorizator ->
  let run := middlewareImpl handler w in
  let bound := request run.2 in
  (Env bound !! TokenEnvName (mw w) = Some (EnvString (Raw token)) ∧
   (TokenEnvName (mw w) ≠ "JWT_PAYLOAD" ->
    Env bound !! "JWT_PAYLOAD" = Some (EnvClaims (Some (Claims token)))) ∧
   (TokenEnvName (mw w) ≠ "REMOTE_USER" ->
    Env bound !! "REMOTE_USER" = Some (EnvString id)) ∧
   (forall k, k ≠ TokenEnvName (mw w) -> k ≠ "JWT_PAYLOAD" ->
              k ≠ "REMOTE_USER" -> Env bound !! k = Env (request w) !! k) ∧
   Header bound = Header (request w) ∧ Body bound = Body (request w)) ∧
  (authorizator id bound = true ->
   run.1 = Ret tt ∧
   trace run.2 = (trace w ++ [EvAuthorizator id; EvHandler])%list ∧
   writer run.2 = handler (writer w) bound) ∧
  (authorizator id bound = false ->
   Rejected w run ∧ ¬ admitted w run.2).
Proof.
  intros Hp Hid Haz run bound.
  pose proof (middlewareImpl_cases handler w token Hp) as Hc.
  cbv zeta in Hc. rewrite Hid, Haz in Hc. destruct Hc as [Hreq Hc].
  subst bound run. rewrite Hreq in *. split; [|split].
  - unfold set_Env. cbn [Env Header Body]. split_and!; try done.
    + apply lookup_insert_eq.
    + intros Hne. rewrite lookup_insert_ne by done. apply lookup_insert_eq.
    + intros Hne. rewrite !lookup_insert_ne by done. apply lookup_insert_eq.
    + intros k H1 H2 H3. by rewrite !lookup_insert_ne.
  - intros Hyes. by rewrite Hyes in Hc.
  - intros Hno. rewrite Hno in Hc. split; [done|].
    intros Ha. by eapply admitted_not_Rejected.
Qed.

(** ** Login *)

Lemma loginToken_trace m lv w :
  trace (loginToken m lv w).2
  = (trace w ++ (if is_nil (PayloadFunc m) then []
                 else if registered (SigningAlgorithm m)
                      then [EvPayloadFunc (Username lv)] else []))%list ∧
  writer (loginToken m lv w).2 = writer w ∧
  request (loginToken m lv w).2 = request w ∧
  mw (loginToken m lv w).2 = mw w.
Proof.
  unfold loginToken, bind, jwt_New, GetSigningMethod.
  destruct (registered (SigningAlgorithm m)); simpl.
  - destruct (PayloadFunc m); simpl; destruct (bool_decide _); simpl;
      by rewrite ?app_nil_r.
  - destruct (PayloadFunc m); simpl; by rewrite ?app_nil_r.
Qed.

(** X7: when the Authenticator turns the credentials down, the login is
    rejected with the uniform unauthorized response after that one call:
    the claims provider is not asked, the clock is not read, and nothing is
    signed, stored or handed to the response callback. *)
Theorem X7_login_bad_credentials (w : World) (loginVals : login)
    (authenticator : string -> string -> bool) :
  DecodeJsonPayload (Body (request w)) = Some loginVals ->
  Authenticator (mw w) = Some authenticator ->
  authenticator (Username loginVals) (Password loginVals) = false ->
  Rejected w (LoginHandler w) ∧
  trace (LoginHandler w).2
    = (trace w
       ++ [EvAuthenticator (Username loginVals) (Password loginVals)])%list ∧
  ticks (LoginHandler w).2 = ticks w.
Proof.
  intros Hdec Ha Hno. unfold LoginHandler, bind. simpl. rewrite Hdec. simpl.
  rewrite Ha. simpl. rewrite Hno. simpl. split; [|done].
  apply (unauthorized_Rejected _ _
           [EvAuthenticator (Username loginVals) (Password loginVals)]);
    simpl; try done. repeat constructor.
Qed.

(** X8: the order of a successful login: the Authenticator, then the claims
    provider (when configured), then the store hook (when configured) with
    the timeout, the username and the signed token, and last the login
    callback with that same token string; the callback writes the
    response. *)
Theorem X8_login_sequence (w : World) (loginVals : login)
    (authenticator : string -> string -> bool) (tokenString : string)
    (callback : string -> Request -> ResponseWriter -> ResponseWriter) :
  let u := Username loginVals in
  let claims :=
    login_claims (provided_claims (mw w) u) u
      (Unix (Add (clock w (ticks w)) (Timeout (mw w))))
      (if bool_decide (MaxRefresh (mw w) ≠ 0)
       then Some (Unix (clock w (S (ticks w)))) else None) in
  DecodeJsonPayload (Body (request w)) = Some loginVals ->
  Authenticator (mw w) = Some authenticator ->
  authenticator u (Password loginVals) = true ->
  registered (SigningAlgorithm (mw w)) = true ->
  SignedString {| Raw := EmptyString; Method := SigningAlgorithm (mw w);
                  Claims := claims |} (Key (mw w)) = Ok tokenString ->
  LoginCallback (mw w) = Some callback ->
  (LoginHandler w).1 = Ret tt ∧
  trace (LoginHandler w).2
    = (trace w
       ++ [EvAuthenticator u (Password loginVals)]
       ++ (if is_nil (PayloadFunc (mw w)) then [] else [EvPayloadFunc u])
       ++ (if StoreToken (mw w)
           then [EvStoreToken (Timeout (mw w)) u tokenString] else [])
       ++ [EvLoginCallback tokenString])%list ∧
  writer (LoginHandler w).2 = callback tokenString (request w) (writer w) ∧
  request (LoginHandler w).2 = request w.
Proof.
  intros u claims Hdec Ha Hyes Hreg Hsig Hcb. subst u claims.
  unfold LoginHandler, bind. simpl. rewrite Hdec. simpl.
  rewrite Ha. simpl. rewrite Hyes. simpl.
  match goal with |- context [loginToken ?m ?l ?w0] =>
    pose proof (loginToken_run m l w0 Hreg) as Hrun;
    pose proof (loginToken_trace m l w0) as (Ft & Fw & Fr & Fm);
    destruct (loginToken m l w0) as [o w1] end.
  simpl in Hrun, Ft, Fw, Fr, Fm. subst o. simpl. rewrite Hsig.
  rewrite Hreg in Ft.
  destruct (StoreToken (mw w)); simpl; rewrite Hcb; simpl;
    rewrite Ft, Fw, Fr, <- ?app_assoc; simpl; done.
Qed.

(** X9: when signing the login token fails, the login is rejected like a
    credential failure, after the Authenticator and the claims provider
    were called: the token is neither stored nor handed to the login
    callback. *)
Theorem X9_login_signing_failure (w : World) (loginVals : login)
    (authenticator : string -> string -> bool) (e : string) :
  let u := Username loginVals in
  let claims :=
    login_claims (provided_claims (mw w) u) u
      (Unix (Add (clock w (ticks w)) (Timeout (mw w))))
      (if bool_decide (MaxRefresh (mw w) ≠ 0)
       then Some (Unix (clock w (S (ticks w)))) else None) in
  DecodeJsonPayload (Body (request w)) = Some loginVals ->
  Authenticator (mw w) = Some authenticator ->
  authenticator u (Password loginVals) = true ->
  registered (SigningAlgorithm (mw w)) = true ->
  SignedString {| Raw := EmptyString; Method := SigningAlgorithm (mw w);
                  Claims := claims |} (Key (mw w)) = Err e ->
  Rejected w (LoginHandler w) ∧
  trace (LoginHandler w).2
    = (trace w
       ++ [EvAuthenticator u (Password loginVals)]
       ++ (if is_nil (PayloadFunc (mw w)) then [] else [EvPayloadFunc u]))%list.
Proof.
  intros u claims Hdec Ha Hyes Hreg Hsig. subst u claims.
  unfold LoginHandler, bind. simpl. rewrite Hdec. simpl.
  rewrite Ha. simpl. rewrite Hyes. simpl.
  match goal with |- context [loginToken ?m ?l ?w0] =>
    pose proof (loginToken_run m l w0 Hreg) as Hrun;
    pose proof (loginToken_trace m l w0) as (Ft & Fw & Fr & Fm);
    destruct (loginToken m l w0) as [o w1] end.
  simpl in Hrun, Ft, Fw, Fr, Fm. subst o. simpl. rewrite Hsig.
  rewrite Hreg in Ft. split.
  - eapply unauthorized_Rejected; simpl; [done|done| |].
    + rewrite Ft, <- app_assoc. reflexivity.
    + destruct (is_nil (PayloadFunc (mw w))); repeat constructor.
  - simpl. rewrite Ft, <- app_assoc. done.
Qed.

(** ** Refresh *)

(** X10: the order of a successful refresh: the new token is stored first
    (when a store hook is configured), then the old token is removed (when
    a removal hook is configured), under the user id and with the raw string
    of the presented token, and last the refresh callback receives the new
    token string and writes the response. *)
Theorem X10_refresh_sequence (w : World) (token : Token) (f : Q)
    (userId tokenString : string)
    (callback : string -> Request -> ResponseWriter -> ResponseWriter) :
  let origIat := int64_of_float64 f in
  let now := clock w (S (ticks w)) in
  let now' := clock w (S (S (ticks w))) in
  (parseToken w).1 = Ret (Ok token) ->
  index (Claims token) "orig_iat" = VFloat64 f ->
  ¬ origIat < Unix (Add now (neg_duration (MaxRefresh (mw w)))) ->
  SignedString
    {| Raw := EmptyString; Method := SigningAlgorithm (mw w);
       Claims := refreshed_claims (Claims token) origIat
                   (Unix (Add now' (Timeout (mw w)))) |} (Key (mw w))
    = Ok tokenString ->
  index (Claims token) "id" = VString userId ->
  RefreshCallback (mw w) = Some callback ->
  (RefreshHandler w).1 = Ret tt ∧
  trace (RefreshHandler w).2
    = (trace w
       ++ (if StoreToken (mw w)
           then [EvStoreToken (Timeout (mw w)) userId tokenString] else [])
       ++ (if RemoveToken (mw w)
           then [EvRemoveToken userId (Raw token)] else [])
       ++ [EvRefreshCallback tokenString])%list ∧
  writer (RefreshHandler w).2 = callback tokenString (request w) (writer w).
Proof.
  intros origIat now now' Hp Ho Hwin Hsig Hid Hcb.
  pose proof (RefreshHandler_cases w token f Hp Ho) as Hc. cbv zeta in Hc.
  fold origIat now now' in Hc.
  assert (Hge : (origIat <? Unix (Add now (neg_duration (MaxRefresh (mw w)))))
                = false) by (apply Z.ltb_ge; lia).
  rewrite Hge, Hsig, Hid, Hcb in Hc. exact Hc.
Qed.

Lemma Unix_mono t1 t2 : t1 <= t2 -> Unix t1 <= Unix t2.
Proof. intros H. unfold Unix, Second. apply Z.div_le_mono; lia. Qed.

(** X11: the refresh window never reopens: if the [orig_iat] of a presented
    token lies before the window at some instant, then a refresh of that
    token whose eligibility check reads the clock at that instant or later
    is rejected. *)
Theorem X11_refresh_window_closed_for_good (w : World) (token : Token)
    (f : Q) (earlier : Z) :
  (parseToken w).1 = Ret (Ok token) ->
  index (Claims token) "orig_iat" = VFloat64 f ->
  int64_of_float64 f
    < Unix (Add earlier (neg_duration (MaxRefresh (mw w)))) ->
  earlier <= clock w (S (ticks w)) ->
  Rejected w (RefreshHandler w).
Proof.
  intros Hp Ho Hlt Hle.
  pose proof (RefreshHandler_cases w token f Hp Ho) as Hc. cbv zeta in Hc.
  assert (Hlt' : (int64_of_float64 f
                  <? Unix (Add (clock w (S (ticks w)))
                             (neg_duration (MaxRefresh (mw w))))) = true).
  { apply Z.ltb_lt. eapply Z.lt_le_trans; [exact Hlt|].
    apply Unix_mono. unfold Add. lia. }
  by rewrite Hlt' in Hc.
Qed.

(** ** The claims loops *)

Lemma copy_in_order_union l dst :
  copy_in_order l dst = list_to_map l ∪ dst.
Proof.
  induction l as [|[k v] l IH]; simpl.
  - by rewrite (left_id_L ∅ (∪)).
  - rewrite IH. by rewrite insert_union_l.
Qed.

(** X12: the two loops that copy claims into a new token (the entries of
    the claims provider at login, the entries of the presented token at
    refresh) give the same map in whatever order the entries are visited:
    every source entry, over the entries the destination already had under
    other keys. *)
Theorem X12_copy_any_order (src dst : gmap string Value)
    (l : list (string * Value)) :
  l ≡ₚ map_to_list src ->
  copy_in_order l dst = copy_entries src dst ∧
  (forall k, copy_entries src dst !! k
             = match src !! k with
               | Some v => Some v
               | None => dst !! k
               end).
Proof.
  intros Hperm. split.
  - rewrite copy_in_order_union. apply map_eq. intros k.
    rewrite lookup_copy_entries.
    assert (list_to_map l = src) as ->; [|done].
    transitivity (list_to_map (M := gmap string Value) (map_to_list src));
      [|apply list_to_map_to_list].
    apply list_to_map_proper; [|done].
    rewrite Hperm. apply NoDup_fst_map_to_list.
  - intros k. rewrite lookup_copy_entries, lookup_union.
    destruct (src !! k), (dst !! k); done.
Qed.

(** ** From login to the protected routes *)

Lemma int64_float64_round_trip n :
  - 2 ^ 53 <= n <= 2 ^ 53 -> int64_of_float64 (float64_of_int64 n) = n.
Proof.
  intros H. rewrite (exact_float64_small n H).
  apply int64_of_float64_inject. unfold in_int64, int64_min, int64_max.
  apply andb_true_intro. split; apply Z.leb_le; lia.
Qed.

Lemma RefreshHandler_not_numeric w token :
  (parseToken w).1 = Ret (Ok token) ->
  (forall f, index (Claims token) "orig_iat" ≠ VFloat64 f) ->
  (RefreshHandler w).1
    = Panic "interface conversion: interface {} is not float64" ∧
  writer (RefreshHandler w).2 = writer w ∧
  trace (RefreshHandler w).2 = trace w.
Proof.
  intros Hp Hno.
  pose proof (parseToken_frame w) as (Fm & Fw & Fr & Fc & Ft).
  unfold RefreshHandler, bind.
  destruct (parseToken w) as [o w1]. simpl in Hp, Fm, Fw, Fr, Fc, Ft.
  subst o. simpl. unfold assert_float64.
  destruct (index (Claims token) "orig_iat") as [| | | |f| |]; simpl;
    try done.
  by destruct (Hno f).
Qed.

(** X13: the claims of a token built by [LoginHandler], as a later request
    brings them back from the wire, hold the username as a string [id] and
    a numeric [exp]; with refresh enabled they hold a numeric [orig_iat]
    from which [RefreshHandler] reads back the very second of the login
    (for any second up to 2^53); with refresh disabled, and no provider
    entry of that name, they hold no [orig_iat]. *)
Theorem X13_login_claims_on_the_wire (w : World) (loginVals : login)
    (token : Token) :
  registered (SigningAlgorithm (mw w)) = true ->
  (loginToken (mw w) loginVals w).1 = Ret token ->
  let wire := json_value <$> Claims token in
  let issued := Unix (clock w (S (ticks w))) in
  index wire "id" = VString (Username loginVals) ∧
  index wire "exp"
    = VFloat64 (float64_of_int64
                  (Unix (Add (clock w (ticks w)) (Timeout (mw w))))) ∧
  (MaxRefresh (mw w) ≠ 0 ->
   index wire "orig_iat" = VFloat64 (float64_of_int64 issued) ∧
   (- 2 ^ 53 <= issued <= 2 ^ 53 ->
    int64_of_float64 (float64_of_int64 issued) = issued)) ∧
  (MaxRefresh (mw w) = 0 ->
   provided_claims (mw w) (Username loginVals) !! "orig_iat" = None ->
   index wire "orig_iat" = VNil).
Proof.
  intros Hreg Hrun wire issued.
  rewrite (loginToken_run (mw w) loginVals w Hreg) in Hrun.
  injection Hrun as <-. subst wire. cbn [Claims].
  match goal with |- context [login_claims ?p ?u ?e ?o] =>
    pose proof (login_claims_lookup p u e o) as (H1 & H2 & H3 & _) end.
  unfold index. rewrite !lookup_fmap, H1, H2, H3. simpl.
  split_and!; try done.
  - intros Hne. rewrite bool_decide_true by done. simpl.
    split; [done|]. apply int64_float64_round_trip.
  - intros Hz Hnone. rewrite bool_decide_false; [|by intros H; apply H].
    by rewrite Hnone.
Qed.

(** X14: with refresh disabled (and no provider entry named orig_iat),
    presenting a token that [LoginHandler] issued to the refresh handler
    makes the handler panic on its numeric type assertion: no response is
    written and the application is not called. *)
Theorem X14_refresh_of_a_login_token_without_refresh
    (w w2 : World) (loginVals : login) (token presented : Token) :
  registered (SigningAlgorithm (mw w)) = true ->
  MaxRefresh (mw w) = 0 ->
  provided_claims (mw w) (Username loginVals) !! "orig_iat" = None ->
  (loginToken (mw w) loginVals w).1 = Ret token ->
  (parseToken w2).1 = Ret (Ok presented) ->
  Claims presented = json_value <$> Claims token ->
  (RefreshHandler w2).1
    = Panic "interface conversion: interface {} is not float64" ∧
  writer (RefreshHandler w2).2 = writer w2 ∧
  trace (RefreshHandler w2).2 = trace w2.
Proof.
  intros Hreg Hz Hnone Hrun Hp Hc.
  apply (RefreshHandler_not_numeric w2 presented Hp).
  intros f. rewrite Hc.
  rewrite (loginToken_run (mw w) loginVals w Hreg) in Hrun.
  injection Hrun as <-. cbn [Claims].
  match goal with |- context [login_claims ?p ?u ?e ?o] =>
    pose proof (login_claims_lookup p u e o) as (_ & _ & H3 & _) end.
  unfold index. rewrite lookup_fmap, H3.
  rewrite bool_decide_false; [|by intros H; apply H].
  by rewrite Hnone.
Qed.

(** X15: [MiddlewareFunc] does not check the signing algorithm.  Under a
    configured algorithm that the token library does not know, the gate
    and the refresh handler reject every request, whatever token it
    presents. *)
Theorem X15_unknown_algorithm_rejects_all
    (handler : ResponseWriter -> Request -> ResponseWriter)
    (w : World) (extractor : Extractor) :
  TokenExtractor (mw w) = Some extractor ->
  registered (SigningAlgorithm (mw w)) = false ->
  Rejected w (middlewareImpl handler w) ∧ Rejected w (RefreshHandler w).
Proof.
  intros Hex Hreg.
  destruct (parseToken_Ret w extractor Hex) as [[token|e] Hp].
  - destruct (parseToken_Ok w token Hp)
      as (_ & _ & _ & _ & _ & _ & _ & Hreg' & _). congruence.
  - destruct (parse_error_rejects handler w e Hp)
      as ((H1 & _) & (H2 & _)). done.
Qed.

Lemma supported_login_claims provided u exp o :
  map_Forall (fun _ v => supported v = true) provided ->
  map_Forall (fun _ v => supported v = true) (login_claims provided u exp o).
Proof.
  intros H. unfold login_claims.
  destruct o; repeat apply map_Forall_insert_2; done.
Qed.

(** X16: a token that [LoginHandler] signs for an accepted user gets
    through the gate for as long as its [exp] lies in the future: presented
    by a later request under the same configuration, it passes
    [parseToken] with the username as [id], and with an Authorizator that
    accepts the user the wrapped handler runs.  The claims provider yields
    encodable values; the libraries decode what they encoded and verify
    what they signed. *)
Theorem X16_login_then_gate
    (handler : ResponseWriter -> Request -> ResponseWriter)
    (w w2 : World) (loginVals : login) (sig : string)
    (extractor : Extractor) (authorizator : string -> Request -> bool) :
  let alg := SigningAlgorithm (mw w) in
  let u := Username loginVals in
  let exp := Unix (Add (clock w (ticks w)) (Timeout (mw w))) in
  let claims :=
    login_claims (provided_claims (mw w) u) u exp
      (if bool_decide (MaxRefresh (mw w) ≠ 0)
       then Some (Unix (clock w (S (ticks w)))) else None) in
  let wire := json_value <$> claims in
  let signed := encode_segments alg wire in
  let tokenString := signed ++ "." ++ sig in
  registered alg = true ->
  map_Forall (fun _ v => supported v = true) (provided_claims (mw w) u) ->
  Sign alg signed (Key (mw w)) = Some sig ->
  (forall s g, Sign alg s (Key (mw w)) = Some g ->
               Verify alg s g (Key (mw w)) = true) ->
  decode_token tokenString = Some (alg, wire, signed, sig) ->
  in_int64 exp = true -> exact_float64 exp ->
  mw w2 = mw w ->
  TokenExtractor (mw w2) = Some extractor ->
  run_extractor extractor (mw w2) (request w2) = Ok tokenString ->
  Unix (clock w2 (ticks w2)) < exp ->
  Authorizator (mw w2) = Some authorizator ->
  (forall r, authorizator u r = true) ->
  SignedString {| Raw := EmptyString; Method := alg; Claims := claims |}
    (Key (mw w)) = Ok tokenString ∧
  (parseToken w2).1
    = Ret (Ok {| Raw := tokenString; Method := alg; Claims := wire |}) ∧
  (middlewareImpl handler w2).1 = Ret tt ∧
  trace (middlewareImpl handler w2).2
    = (trace w2 ++ [EvAuthorizator u; EvHandler])%list.
Proof.
  intros alg u exp claims wire signed tokenString
    Hreg Hsup Hsig Hscheme Hdec Hr Hx Hm Hex Hrun Hlt Haz Hyes.
  assert (Hwid : index wire "id" = VString u).
  { subst wire claims.
    match goal with |- context [login_claims ?p ?u0 ?e ?o] =>
      pose proof (login_claims_lookup p u0 e o) as (H1 & _) end.
    unfold index. by rewrite lookup_fmap, H1. }
  assert (Hwe : wire !! "exp" = Some (VFloat64 (inject_Z exp))).
  { subst wire claims.
    match goal with |- context [login_claims ?p ?u0 ?e ?o] =>
      pose proof (login_claims_lookup p u0 e o) as (_ & H2 & _) end.
    rewrite lookup_fmap, H2. simpl. by rewrite Hx. }
  assert (Hp : (parseToken w2).1
               = Ret (Ok {| Raw := tokenString; Method := alg;
                            Claims := wire |})).
  { apply (parseToken_accepts w2 extractor tokenString alg wire signed sig).
    - exact Hex.
    - exact Hrun.
    - exact Hdec.
    - by rewrite Hm.
    - by rewrite Hm.
    - rewrite Hm. by apply Hscheme.
    - unfold exp_in_future. rewrite Hwe.
      rewrite int64_of_float64_inject by done. by apply Z.ltb_lt. }
  split; [|split; [exact Hp|]].
  - apply (SignedString_Ok
             {| Raw := EmptyString; Method := alg; Claims := claims |}
             (Key (mw w)) sig); [|exact Hsig].
    by apply supported_login_claims.
  - pose proof (middlewareImpl_cases handler w2 _ Hp) as Hc.
    cbv zeta in Hc. cbn [Claims Raw] in Hc. rewrite Hwid, Haz in Hc.
    destruct Hc as [_ Hc]. rewrite Hyes in Hc. by destruct Hc as (? & ? & _).
Qed.

(** X17: after [MiddlewareFunc] on a struct that names neither a token
    extractor nor a header, the gate takes the token from the Authorization
    header: the extractor it installed returns t exactly for a request whose
    Authorization header is the word Bearer, one space and t. *)
Theorem X17_default_header
    (handler : ResponseWriter -> Request -> ResponseWriter) (w w2 : World) :
  (MiddlewareFunc handler w).1 = Ret (middlewareImpl handler) ->
  TokenExtractor (mw w) = None -> TokenName (mw w) = EmptyString ->
  mw w2 = mw (MiddlewareFunc handler w).2 ->
  TokenExtractor (mw w2) = Some DefaultExtractor ∧
  (forall t,
     run_extractor DefaultExtractor (mw w2) (request w2) = Ok t
     <-> Header (request w2) "Authorization" = "Bearer " ++ t).
Proof.
  intros Hret Hex Hname Hm.
  assert (Hwc : well_configured (mw w) = true).
  { rewrite MiddlewareFunc_outcome in Hret. unfold well_configured.
    destruct (bool_decide (Realm (mw w) = EmptyString)); [done|].
    destruct (is_nil (Key (mw w))); [done|].
    by destruct (is_nil (Authenticator (mw w))). }
  destruct (MiddlewareFunc_defaults handler w Hwc) as [_ Hd].
  rewrite Hd in Hm.
  assert (Hn : TokenName (mw w2) = "Authorization").
  { rewrite Hm. unfold with_defaults. proj_simpl. by rewrite Hname. }
  split.
  - rewrite Hm. unfold with_defaults. proj_simpl. by rewrite Hex.
  - intros t. cbn [run_extractor].
    destruct (defaultTokenExtractor_cases (mw w2) (request w2)) as (H & _).
    rewrite (H t). by rewrite Hn.
Qed.

End Properties.

(** * The scenario, computed *)


(** A verified token without [id] makes the gate panic: no unauthorized
    response is written and nothing is bound. *)
Lemma C2_gate_requires_string_id_witness :
  (@middlewareImpl example_libraries no_handler
     (bearer_world example_mw claimsX 3000)).1
  = Panic "interface conversion: interface {} is not string".
Proof.
  apply (proj1 (@C2_gate_requires_string_id example_libraries no_handler
                  (bearer_world example_mw claimsX 3000)
                  (example_token claimsX)
                  ltac:(vm_compute; reflexivity))).
  intros id. vm_compute. discriminate.
Defined.

Lemma C2_counterexample :
  (@parseToken example_libraries (bearer_world example_mw claimsX 3000)).1
    = Ret (Ok (example_token claimsX)) ∧
  Claims (example_token claimsX) !! "id" = None ∧
  (@middlewareImpl example_libraries no_handler
     (bearer_world example_mw claimsX 3000)).1
    = Panic "interface conversion: interface {} is not string" ∧
  status (writer (@middlewareImpl example_libraries no_handler
                    (bearer_world example_mw claimsX 3000)).2) = None ∧
  body (writer (@middlewareImpl example_libraries no_handler
                  (bearer_world example_mw claimsX 3000)).2) = [].
Proof. vm_compute. repeat split. Qed.

(** Token A is accepted at second 3000 and refused at second 3600, the
    instant of its [exp]. *)
Lemma C3_parseToken_verdict_witness :
  (@parseToken example_libraries (bearer_world example_mw claimsA 3000)).1
    = Ret (Ok (example_token claimsA)) ∧
  ∃ e, (@parseToken example_libraries
          (bearer_world example_mw claimsA 3600)).1 = Ret (Err e).
Proof.
  split.
  - apply (proj1 (proj2 (@C3_parseToken_verdict example_libraries
                    (bearer_world example_mw claimsA 3000) DefaultExtractor
                    (toy_token "HS256" claimsA) "HS256"
                    ("HS256" ++ "." ++ render_claims claimsA)
                    ("mac(HS256," ++ "HS256" ++ "." ++ render_claims claimsA
                       ++ ")")
                    claimsA
                    ltac:(reflexivity)
                    ltac:(vm_compute; reflexivity)
                    ltac:(vm_compute; reflexivity)
                    ltac:(vm_compute; reflexivity))));
      vm_compute; reflexivity.
  - apply (proj1 (@C3_parseToken_verdict example_libraries
                    (bearer_world example_mw claimsA 3600) DefaultExtractor
                    (toy_token "HS256" claimsA) "HS256"
                    ("HS256" ++ "." ++ render_claims claimsA)
                    ("mac(HS256," ++ "HS256" ++ "." ++ render_claims claimsA
                       ++ ")")
                    claimsA
                    ltac:(reflexivity)
                    ltac:(vm_compute; reflexivity)
                    ltac:(vm_compute; reflexivity)
                    ltac:(vm_compute; reflexivity))).
    right. right. vm_compute. reflexivity.
Defined.

(** The login of alice at second 0 under the example configuration. *)
Lemma C4_login_claims_witness :
  ∃ claims : gmap string Value,
    claims !! "id" = Some (VString "alice") ∧
    claims !! "exp" = Some (VInt64 3600) ∧
    claims !! "orig_iat" = Some (VInt64 0).
Proof.
  destruct (@C4_login_claims example_libraries
              (login_world example_mw "alice secret" 0)
              {| Username := "alice"; Password := "secret" |}
              (fun u p => bool_decide (u = "alice") && bool_decide (p = "secret"))
              ltac:(vm_compute; reflexivity)
              ltac:(reflexivity)
              ltac:(vm_compute; reflexivity)
              ltac:(vm_compute; reflexivity))
    as (claims & _ & Hid & Hexp & Hiat & _).
  exists claims. split; [exact Hid|]. split; [exact Hexp|].
  apply Hiat. vm_compute. discriminate.
Defined.

(** With refresh disabled, an [orig_iat] of the claims provider ends up in
    the signed claims. *)
Lemma C4_counterexample :
  MaxRefresh colliding_mw = 0 ∧
  (@LoginHandler example_libraries
     (login_world colliding_mw "alice secret" 0)).1 = Ret tt ∧
  (∃ token,
     (@loginToken example_libraries colliding_mw
        {| Username := "alice"; Password := "secret" |}
        (login_world colliding_mw "alice secret" 0)).1 = Ret token ∧
     Claims token !! "orig_iat" = Some (VInt64 12345) ∧
     last (trace (@LoginHandler example_libraries
                    (login_world colliding_mw "alice secret" 0)).2)
       = Some (EvLoginCallback
                 (toy_token "HS256" (json_value <$> Claims token)))).
Proof.
  split; [reflexivity|]. split; [vm_compute; reflexivity|].
  eexists. split; [vm_compute; reflexivity|].
  split; vm_compute; reflexivity.
Qed.

(** Token A refreshed at second 3000 gives token B, and token B verifies at
    second 5000. *)
Lemma C5_refresh_round_trip_witness :
  (@RefreshHandler example_libraries
     (bearer_world example_mw claimsA 3000)).1 = Ret tt ∧
  last (trace (@RefreshHandler example_libraries
                 (bearer_world example_mw claimsA 3000)).2)
    = Some (EvRefreshCallback (toy_token "HS256" claimsB)) ∧
  (@parseToken example_libraries (bearer_world example_mw claimsB 5000)).1
    = Ret (Ok (example_token claimsB)).
Proof.
  destruct (@C5_refresh_round_trip example_libraries
              (bearer_world example_mw claimsA 3000) (example_token claimsA)
              0 "alice"
              ("mac(HS256," ++ "HS256" ++ "." ++ render_claims claimsB ++ ")")
              defaultResponseCallback
              ltac:(vm_compute; reflexivity)
              ltac:(apply (bool_decide_unpack _); vm_compute; exact I)
              ltac:(vm_compute; reflexivity)
              ltac:(vm_compute; reflexivity)
              ltac:(vm_compute; reflexivity)
              ltac:(vm_compute; discriminate)
              ltac:(vm_compute; reflexivity)
              ltac:(reflexivity)
              ltac:(vm_compute; reflexivity)
              ltac:(intros s g [= <-]; apply bool_decide_eq_true; reflexivity)
              ltac:(vm_compute; reflexivity)
              ltac:(vm_compute; reflexivity)
              ltac:(vm_compute; reflexivity))
    as ((Hret & Hlast & _) & _ & Hverifies).
  split; [exact Hret|]. split.
  - etransitivity; [exact Hlast|]. vm_compute. reflexivity.
  - etransitivity;
      [exact (Hverifies (bearer_world example_mw claimsB 5000) DefaultExtractor
                eq_refl eq_refl ltac:(vm_compute; reflexivity)
                ltac:(vm_compute; reflexivity))|].
    vm_compute. reflexivity.
Defined.

(** Token N, handed out while refresh was disabled, has no [orig_iat]:
    presenting it to the refresh handler panics. *)
Lemma C6_refresh_requires_orig_iat_witness :
  (@RefreshHandler example_libraries
     (bearer_world example_mw claimsN 3000)).1
  = Panic "interface conversion: interface {} is not float64".
Proof.
  apply (proj1 (@C6_refresh_requires_orig_iat example_libraries
                  (bearer_world example_mw claimsN 3000)
                  (example_token claimsN)
                  ltac:(vm_compute; reflexivity))).
  intros f. vm_compute. discriminate.
Defined.

Lemma C6_counterexample :
  (@parseToken example_libraries (bearer_world example_mw claimsN 3000)).1
    = Ret (Ok (example_token claimsN)) ∧
  Claims (example_token claimsN) !! "orig_iat" = None ∧
  (@RefreshHandler example_libraries
     (bearer_world example_mw claimsN 3000)).1
    = Panic "interface conversion: interface {} is not float64" ∧
  status (writer (@RefreshHandler example_libraries
                    (bearer_world example_mw claimsN 3000)).2) = None ∧
  body (writer (@RefreshHandler example_libraries
                  (bearer_world example_mw claimsN 3000)).2) = [].
Proof. vm_compute. repeat split. Qed.

(** A request without Authorization header is rejected; the challenge holds
    the realm as configured, without quotation marks around it. *)
Lemma C7_counterexample :
  Rejected (login_world example_mw EmptyString 0)
    (@middlewareImpl example_libraries no_handler
       (login_world example_mw EmptyString 0)) ∧
  headers (writer (@middlewareImpl example_libraries no_handler
                     (login_world example_mw EmptyString 0)).2)
    !! "WWW-Authenticate" = Some "JWT realm=test zone" ∧
  "JWT realm=test zone" ≠ "JWT realm=" ++ quote ++ "test zone" ++ quote.
Proof.
  split; [|split].
  - split; [vm_compute; reflexivity|]. split; [vm_compute; reflexivity|].
    exists []. split; [vm_compute; reflexivity|constructor].
  - vm_compute. reflexivity.
  - vm_compute. discriminate.
Qed.

(** [MiddlewareFunc] on the struct of an application that sets the required
    fields only. *)
Lemma C8_counterexample :
  TokenName bare_mw = EmptyString ∧ Timeout bare_mw = 0 ∧
  (@MiddlewareFunc example_libraries no_handler
     (login_world bare_mw EmptyString 0)).1
    = Ret (@middlewareImpl example_libraries no_handler) ∧
  TokenName (mw (@MiddlewareFunc example_libraries no_handler
                   (login_world bare_mw EmptyString 0)).2) = "Authorization" ∧
  Timeout (mw (@MiddlewareFunc example_libraries no_handler
                 (login_world bare_mw EmptyString 0)).2) = Hour ∧
  mw (@MiddlewareFunc example_libraries no_handler
        (login_world bare_mw EmptyString 0)).2 ≠ bare_mw.
Proof.
  split; [reflexivity|]. split; [reflexivity|].
  split; [reflexivity|]. split; [reflexivity|]. split; [reflexivity|].
  intros H. apply (f_equal Timeout) in H. vm_compute in H. discriminate H.
Qed.

(** With TokenEnvName set to JWT_PAYLOAD the gate lets token A through and
    [ExtractClaims] panics on the request it hands on. *)
Lemma C9_counterexample :
  (@middlewareImpl example_libraries no_handler
     (bearer_world payload_env_mw claimsA 3000)).1 = Ret tt ∧
  last (trace (@middlewareImpl example_libraries no_handler
                 (bearer_world payload_env_mw claimsA 3000)).2)
    = Some EvHandler ∧
  ExtractClaims
    (request (@middlewareImpl example_libraries no_handler
                (bearer_world payload_env_mw claimsA 3000)).2)
    = Panic "interface conversion: interface {} is not map".
Proof. vm_compute. repeat split. Qed.

(** Under the example configuration the gate hands on token A's claims. *)
Lemma C9_ExtractClaims_witness :
  ExtractClaims
    (request (@middlewareImpl example_libraries no_handler
                (bearer_world example_mw claimsA 3000)).2)
  = Ret (Some claimsA).
Proof.
  apply (proj2 (@C9_ExtractClaims example_libraries) no_handler
           (bearer_world example_mw claimsA 3000) (example_token claimsA)).
  - vm_compute. reflexivity.
  - vm_compute. reflexivity.
  - exists [EvAuthorizator "alice"; EvHandler].
    split; [vm_compute; reflexivity|]. right. left. reflexivity.
  - vm_compute. discriminate.
Defined.

(** A login body that does not decode. *)
Lemma C10_login_bad_payload_witness :
  (@LoginHandler example_libraries
     (login_world example_mw "garbage" 0)).1 = Ret tt ∧
  trace (@LoginHandler example_libraries
           (login_world example_mw "garbage" 0)).2 = [].
Proof.
  destruct (@C10_login_bad_payload example_libraries
              (login_world example_mw "garbage" 0)
              ltac:(vm_compute; reflexivity))
    as (Hret & _ & Htrace & _).
  split; [exact Hret|exact Htrace].
Defined.

(** * The further properties, on the scenario *)

(** Token A presented at second 5000, after its [exp]. *)
Lemma X2_parse_error_rejects_witness :
  Rejected (bearer_world example_mw claimsA 5000)
    (@RefreshHandler example_libraries (bearer_world example_mw claimsA 5000)).
Proof.
  apply (@X2_parse_error_rejects example_libraries no_handler
           (bearer_world example_mw claimsA 5000) "token is invalid"
           ltac:(vm_compute; reflexivity)).
Defined.

(** A request with Basic credentials in its Authorization header. *)
Lemma X3_malformed_header_rejected_witness :
  Rejected
    (example_world example_mw (example_request "Basic YWxpY2U6" EmptyString) 0)
    (@middlewareImpl example_libraries no_handler
       (example_world example_mw
          (example_request "Basic YWxpY2U6" EmptyString) 0)).
Proof.
  apply (@X3_malformed_header_rejected example_libraries no_handler
           (example_world example_mw
              (example_request "Basic YWxpY2U6" EmptyString) 0)
           eq_refl).
  intros t. vm_compute. discriminate.
Defined.

(** The gate built from the bare struct, on a request with token A. *)
Lemma X5_outcomes_after_MiddlewareFunc_witness :
  (@middlewareImpl example_libraries no_handler
     (bearer_world (with_defaults bare_mw) claimsA 3000)).1 = Ret tt ∨
  (@middlewareImpl example_libraries no_handler
     (bearer_world (with_defaults bare_mw) claimsA 3000)).1
    = Panic "interface conversion: interface {} is not string".
Proof.
  apply (@X5_outcomes_after_MiddlewareFunc example_libraries no_handler
           (login_world bare_mw EmptyString 0)
           (bearer_world (with_defaults bare_mw) claimsA 3000)
           eq_refl eq_refl).
Defined.

(** Token A at the gate: alice is bound under REMOTE_USER. *)
Lemma X6_gate_binds_environment_witness :
  Env (request (@middlewareImpl example_libraries no_handler
                  (bearer_world example_mw claimsA 3000)).2) !! "REMOTE_USER"
  = Some (EnvString "alice").
Proof.
  destruct (@X6_gate_binds_environment example_libraries no_handler
              (bearer_world example_mw claimsA 3000) (example_token claimsA)
              "alice" (fun _ _ => true)
              ltac:(vm_compute; reflexivity)
              ltac:(vm_compute; reflexivity)
              eq_refl)
    as ((_ & _ & H & _) & _).
  apply H. vm_compute. discriminate.
Defined.

(** A login with a wrong password. *)
Lemma X7_login_bad_credentials_witness :
  trace (@LoginHandler example_libraries
           (login_world example_mw "alice guess" 0)).2
  = [EvAuthenticator "alice" "guess"].
Proof.
  apply (@X7_login_bad_credentials example_libraries
           (login_world example_mw "alice guess" 0)
           {| Username := "alice"; Password := "guess" |}
           (fun u p => bool_decide (u = "alice") && bool_decide (p = "secret"))
           ltac:(vm_compute; reflexivity) eq_refl
           ltac:(vm_compute; reflexivity)).
Defined.

(** The login of alice at second 0: token A is stored, then handed out. *)
Lemma X8_login_sequence_witness :
  trace (@LoginHandler example_libraries
           (login_world example_mw "alice secret" 0)).2
  = [EvAuthenticator "alice" "secret";
     EvStoreToken Hour "alice" (toy_token "HS256" claimsA);
     EvLoginCallback (toy_token "HS256" claimsA)].
Proof.
  destruct (@X8_login_sequence example_libraries
              (login_world example_mw "alice secret" 0)
              {| Username := "alice"; Password := "secret" |}
              (fun u p => bool_decide (u = "alice") && bool_decide (p = "secret"))
              (toy_token "HS256" claimsA) defaultResponseCallback
              ltac:(vm_compute; reflexivity) eq_refl
              ltac:(vm_compute; reflexivity)
              ltac:(vm_compute; reflexivity)
              ltac:(vm_compute; reflexivity) eq_refl)
    as (_ & Ht & _).
  etransitivity; [exact Ht|]. vm_compute. reflexivity.
Defined.

(** A claims provider whose value cannot be encoded. *)
Lemma X9_login_signing_failure_witness :
  Rejected (login_world unencodable_mw "alice secret" 0)
    (@LoginHandler example_libraries
       (login_world unencodable_mw "alice secret" 0)).
Proof.
  apply (@X9_login_signing_failure example_libraries
           (login_world unencodable_mw "alice secret" 0)
           {| Username := "alice"; Password := "secret" |}
           (fun u p => bool_decide (u = "alice") && bool_decide (p = "secret"))
           "json: unsupported type"
           ltac:(vm_compute; reflexivity) eq_refl
           ltac:(vm_compute; reflexivity)
           ltac:(vm_compute; reflexivity)
           ltac:(vm_compute; reflexivity)).
Defined.

(** Token A refreshed at second 3000: B is stored, A removed, B handed
    out. *)
Lemma X10_refresh_sequence_witness :
  trace (@RefreshHandler example_libraries
           (bearer_world example_mw claimsA 3000)).2
  = [EvStoreToken Hour "alice" (toy_token "HS256" claimsB);
     EvRemoveToken "alice" (toy_token "HS256" claimsA);
     EvRefreshCallback (toy_token "HS256" claimsB)].
Proof.
  destruct (@X10_refresh_sequence example_libraries
              (bearer_world example_mw claimsA 3000) (example_token claimsA)
              (inject_Z 0) "alice" (toy_token "HS256" claimsB)
              defaultResponseCallback
              ltac:(vm_compute; reflexivity)
              ltac:(vm_compute; reflexivity)
              ltac:(vm_compute; discriminate)
              ltac:(vm_compute; reflexivity)
              ltac:(vm_compute; reflexivity) eq_refl)
    as (_ & Ht & _).
  etransitivity; [exact Ht|]. vm_compute. reflexivity.
Defined.

(** Token C was outside the window at second 7201 already. *)
Lemma X11_refresh_window_closed_for_good_witness :
  Rejected (bearer_world example_mw claimsC 7300)
    (@RefreshHandler example_libraries (bearer_world example_mw claimsC 7300)).
Proof.
  apply (@X11_refresh_window_closed_for_good example_libraries
           (bearer_world example_mw claimsC 7300) (example_token claimsC)
           (inject_Z 0) (7201 * Second)
           ltac:(vm_compute; reflexivity)
           ltac:(vm_compute; reflexivity)
           ltac:(vm_compute; reflexivity)
           ltac:(vm_compute; discriminate)).
Defined.

(** The entries of token A copied in reverse order. *)
Lemma X12_copy_any_order_witness :
  copy_in_order (reverse (map_to_list claimsA)) ∅ = copy_entries claimsA ∅.
Proof.
  apply (X12_copy_any_order claimsA ∅ (reverse (map_to_list claimsA))).
  apply reverse_Permutation.
Defined.

(** The login of alice at second 0, refresh enabled: [orig_iat] comes back
    as the number 0. *)
Lemma X13_login_claims_on_the_wire_witness :
  index (json_value <$>
           login_claims ∅ "alice" 3600 (Some 0)) "orig_iat"
  = VFloat64 (float64_of_int64 0).
Proof.
  destruct (@X13_login_claims_on_the_wire example_libraries
              (login_world example_mw "alice secret" 0)
              {| Username := "alice"; Password := "secret" |}
              {| Raw := EmptyString; Method := "HS256";
                 Claims := login_claims ∅ "alice" 3600 (Some 0) |}
              ltac:(vm_compute; reflexivity)
              ltac:(vm_compute; reflexivity))
    as (_ & _ & H & _).
  apply H. vm_compute. discriminate.
Defined.

(** Token N is what the login hands out with refresh disabled; presenting
    it to the refresh handler panics. *)
Lemma X14_refresh_of_a_login_token_without_refresh_witness :
  (@RefreshHandler example_libraries
     (bearer_world norefresh_mw claimsN 100)).1
  = Panic "interface conversion: interface {} is not float64".
Proof.
  apply (@X14_refresh_of_a_login_token_without_refresh example_libraries
           (login_world norefresh_mw "alice secret" 0)
           (bearer_world norefresh_mw claimsN 100)
           {| Username := "alice"; Password := "secret" |}
           {| Raw := EmptyString; Method := "HS256";
              Claims := login_claims ∅ "alice" 3600 None |}
           (example_token claimsN)
           ltac:(vm_compute; reflexivity)
           eq_refl
           ltac:(vm_compute; reflexivity)
           ltac:(vm_compute; reflexivity)
           ltac:(vm_compute; reflexivity)
           ltac:(vm_compute; reflexivity)).
Defined.

(** Under the misspelt algorithm HS257 even token A is rejected. *)
Lemma X15_unknown_algorithm_rejects_all_witness :
  Rejected (bearer_world misspelt_mw claimsA 3000)
    (@middlewareImpl example_libraries no_handler
       (bearer_world misspelt_mw claimsA 3000)).
Proof.
  apply (@X15_unknown_algorithm_rejects_all example_libraries no_handler
           (bearer_world misspelt_mw claimsA 3000) DefaultExtractor
           eq_refl ltac:(vm_compute; reflexivity)).
Defined.

(** The token of alice's login at second 0 gets her through the gate at
    second 3000. *)
Lemma X16_login_then_gate_witness :
  trace (@middlewareImpl example_libraries no_handler
           (bearer_world example_mw claimsA 3000)).2
  = [EvAuthorizator "alice"; EvHandler].
Proof.
  destruct (@X16_login_then_gate example_libraries no_handler
              (login_world example_mw "alice secret" 0)
              (bearer_world example_mw claimsA 3000)
              {| Username := "alice"; Password := "secret" |}
              ("mac(HS256," ++ "HS256" ++ "." ++ render_claims claimsA ++ ")")
              DefaultExtractor (fun _ _ => true)
              ltac:(vm_compute; reflexivity)
              ltac:(apply (bool_decide_unpack _); vm_compute; exact I)
              ltac:(vm_compute; reflexivity)
              ltac:(intros s g [= <-]; apply bool_decide_eq_true; reflexivity)
              ltac:(vm_compute; reflexivity)
              ltac:(vm_compute; reflexivity)
              ltac:(vm_compute; reflexivity)
              eq_refl eq_refl
              ltac:(vm_compute; reflexivity)
              ltac:(vm_compute; reflexivity)
              eq_refl
              ltac:(intros r; reflexivity))
    as (_ & _ & _ & Ht).
  exact Ht.
Defined.

(** The gate built from the bare struct reads the Authorization header. *)
Lemma X17_default_header_witness :
  @run_extractor DefaultExtractor (with_defaults bare_mw)
    (example_request "Bearer abc" EmptyString) = Ok "abc".
Proof.
  destruct (@X17_default_header example_libraries no_handler
              (login_world bare_mw EmptyString 0)
              (example_world (with_defaults bare_mw)
                 (example_request "Bearer abc" EmptyString) 0)
              eq_refl eq_refl eq_refl eq_refl)
    as (_ & H).
  apply (H "abc"). reflexivity.
Defined.
